(** * Timeline-Basic: the data-to-layout computation of [src/visual.ts]

    A shallow embedding of the Power BI "Key Events Timeline" visual:
    row extraction ([CONVERTER]), the date window chosen in [update], the
    year colour table ([getColorDataByYear]), the axis granularity
    ([renderXandYAxis], [diff_years]), the lane of every event
    ([renderBox], [renderTimeRangeLines]) and the link handler
    ([handleHyperLinkClick]).

    Conventions of the embedding.
    - A JavaScript number that the code only uses as an integer is a [Z];
      "integer or NaN" is [option Z] with [None] for NaN.  Where the code
      divides ([diff_years], [Math.ceil(i / 2)]) the quotient is an exact
      rational [Q], as are pixel coordinates: the rounding of IEEE doubles
      is not modelled.
    - A [Date] object is its time value, [ValidDate t] with [t] in
      milliseconds since the epoch, or [InvalidDate] (time value NaN).  A
      field of type [Date | null] is an [option JSDate].
    - The local time zone is a constant offset [LocalTZA] of the host
      (no daylight saving changes).
    - A thrown exception is the [Throw] case of [result]; the fields of the
      [Visual] object that the methods assign are threaded as a state.
    - d3, sanitize-html, valid-data-url and the Power BI host are outside
      the repository: what the code asks of them is a field of [Host]. *)

From Stdlib Require Import ZArith Lia List Bool String Ascii QArith Qround Qabs.
Import ListNotations.
Local Open Scope string_scope.
Local Open Scope Z_scope.

(* ------------------------------------------------------------------ *)
(** ** JavaScript values *)

Module JS.

(** The only exception the modelled code raises: reading a property of
    [null] or [undefined]. *)
Inductive exn : Type := TypeError.

Inductive result (A : Type) : Type :=
| Ok (a : A)
| Throw (e : exn).
Arguments Ok {A} a.
Arguments Throw {A} e.

Definition bind {A B : Type} (r : result A) (k : A -> result B) : result B :=
  match r with
  | Ok a => k a
  | Throw e => Throw e
  end.

(** Numbers that may be NaN. *)
Definition num : Type := option Q.
Definition inum : Type := option Z.

Definition NaN {A : Type} : option A := None.

Definition isNaN {A : Type} (x : option A) : bool :=
  match x with
  | None => true
  | Some _ => false
  end.

(** [a >= b] and [a <= b] on numbers: false as soon as one side is NaN. *)
Definition ge (a b : inum) : bool :=
  match a, b with
  | Some x, Some y => y <=? x
  | _, _ => false
  end.

Definition le (a b : inum) : bool :=
  match a, b with
  | Some x, Some y => x <=? y
  | _, _ => false
  end.

(** [a + k] and [a - k] for an integer constant [k]. *)
Definition addZ (a : inum) (k : Z) : inum := option_map (fun x => x + k) a.
Definition addQ (a : num) (k : Q) : num := option_map (fun x => Qplus x k) a.

(** [Math.round]: the nearest integer, a tie going up. *)
Definition Math_round (x : Q) : Z := Qfloor (x + (1 # 2))%Q.

(** [Math.ceil]. *)
Definition Math_ceil (x : Q) : Z := Qceiling x.

(** The results of [Math.min] and [Math.max] on time values:
    [Math.min()] of no argument is [+Infinity], [Math.max()] is
    [-Infinity], and a NaN argument makes the result NaN. *)
Inductive xnum : Type :=
| XNaN
| PosInf
| NegInf
| Fin (z : Z).

Definition xmin (a b : xnum) : xnum :=
  match a, b with
  | XNaN, _ | _, XNaN => XNaN
  | NegInf, _ | _, NegInf => NegInf
  | PosInf, c | c, PosInf => c
  | Fin x, Fin y => Fin (Z.min x y)
  end.

Definition xmax (a b : xnum) : xnum :=
  match a, b with
  | XNaN, _ | _, XNaN => XNaN
  | PosInf, _ | _, PosInf => PosInf
  | NegInf, c | c, NegInf => c
  | Fin x, Fin y => Fin (Z.max x y)
  end.

Definition Math_min (l : list xnum) : xnum := fold_left xmin l PosInf.
Definition Math_max (l : list xnum) : xnum := fold_left xmax l NegInf.

(** [Array.prototype.slice(0, n)]. *)
Definition slice0 {A : Type} (n : nat) (l : list A) : list A := firstn n l.

(** [String.prototype.toLowerCase], on the ASCII letters. *)
Definition lower_ascii (c : ascii) : ascii :=
  let n := nat_of_ascii c in
  if (65 <=? n)%nat && (n <=? 90)%nat then ascii_of_nat (n + 32) else c.

Fixpoint toLowerCase (s : string) : string :=
  match s with
  | EmptyString => EmptyString
  | String c s' => String (lower_ascii c) (toLowerCase s')
  end.

(** [s.indexOf(p)]: the position of the first occurrence, or -1. *)
Definition indexOf (s p : string) : Z :=
  match index 0 p s with
  | Some n => Z.of_nat n
  | None => -1
  end.

End JS.
Import JS.

Declare Scope js_scope.
Notation "x <- r ;; k" := (JS.bind r (fun x => k))
  (at level 61, r at next level, right associativity) : js_scope.
Local Open Scope js_scope.

(* ------------------------------------------------------------------ *)
(** ** Time values (ECMAScript, "Date objects") *)

Module ESDate.

Definition msPerDay : Z := 86400000.

Definition Day (t : Z) : Z := t / msPerDay.
Definition TimeWithinDay (t : Z) : Z := t mod msPerDay.

Definition DaysInYear (y : Z) : Z :=
  if negb (y mod 4 =? 0) then 365
  else if negb (y mod 100 =? 0) then 366
  else if negb (y mod 400 =? 0) then 365
  else 366.

Definition DayFromYear (y : Z) : Z :=
  365 * (y - 1970) + (y - 1969) / 4 - (y - 1901) / 100 + (y - 1601) / 400.

Definition TimeFromYear (y : Z) : Z := msPerDay * DayFromYear y.

(** The year of a day number: the estimate from the mean year length of
    the 400-year cycle is off by at most one. *)
Definition YearFromDay (d : Z) : Z :=
  let y := 1970 + (400 * d) / 146097 in
  if d <? DayFromYear y then y - 1
  else if DayFromYear (y + 1) <=? d then y + 1
  else y.

Definition YearFromTime (t : Z) : Z := YearFromDay (Day t).

Definition InLeapYear (y : Z) : bool := DaysInYear y =? 366.

Definition DayWithinYear (t : Z) : Z := Day t - DayFromYear (YearFromTime t).

(** The day within the year on which month [m] (0 = January) begins. *)
Definition DayOfMonthStart (m : Z) (leap : bool) : Z :=
  let l := if leap then 1 else 0 in
  match m with
  | 0 => 0
  | 1 => 31
  | 2 => 59 + l
  | 3 => 90 + l
  | 4 => 120 + l
  | 5 => 151 + l
  | 6 => 181 + l
  | 7 => 212 + l
  | 8 => 243 + l
  | 9 => 273 + l
  | 10 => 304 + l
  | 11 => 334 + l
  | _ => 365 + l
  end.

Definition MonthFromTime (t : Z) : Z :=
  let d := DayWithinYear t in
  let leap := InLeapYear (YearFromTime t) in
  if d <? DayOfMonthStart 1 leap then 0
  else if d <? DayOfMonthStart 2 leap then 1
  else if d <? DayOfMonthStart 3 leap then 2
  else if d <? DayOfMonthStart 4 leap then 3
  else if d <? DayOfMonthStart 5 leap then 4
  else if d <? DayOfMonthStart 6 leap then 5
  else if d <? DayOfMonthStart 7 leap then 6
  else if d <? DayOfMonthStart 8 leap then 7
  else if d <? DayOfMonthStart 9 leap then 8
  else if d <? DayOfMonthStart 10 leap then 9
  else if d <? DayOfMonthStart 11 leap then 10
  else 11.

Definition DateFromTime (t : Z) : Z :=
  DayWithinYear t
  - DayOfMonthStart (MonthFromTime t) (InLeapYear (YearFromTime t)) + 1.

(** [MakeDay(year, month, date)]: months outside 0..11 carry into the
    year. *)
Definition MakeDay (year month date : Z) : Z :=
  let ym := year + month / 12 in
  let mn := month mod 12 in
  DayFromYear ym + DayOfMonthStart mn (InLeapYear ym) + date - 1.

Definition MakeDate (day time : Z) : Z := day * msPerDay + time.

Definition maxTime : Z := 8640000000000000.

End ESDate.
Import ESDate.

Inductive JSDate : Type :=
| ValidDate (t : Z)
| InvalidDate.

(** [TimeClip]: a time value beyond 100,000,000 days from the epoch is NaN. *)
Definition TimeClip (t : Z) : JSDate :=
  if maxTime <? Z.abs t then InvalidDate else ValidDate t.

(** [date.getTime()], also the number a [Date] converts to. *)
Definition getTime (d : JSDate) : inum :=
  match d with
  | ValidDate t => Some t
  | InvalidDate => NaN
  end.

(** [new Date(value)] for a number. *)
Definition new_Date_value (v : xnum) : JSDate :=
  match v with
  | Fin t => TimeClip t
  | _ => InvalidDate
  end.

(** [new Date(value)] for a number that is an integer or NaN
    (the result of [Date.parse]). *)
Definition new_Date_num (v : inum) : JSDate :=
  match v with
  | Some t => TimeClip t
  | None => InvalidDate
  end.

(* ------------------------------------------------------------------ *)
(** ** The data view handed over by Power BI *)

(** A cell of a table row ([powerbi.PrimitiveValue], or [undefined] when
    the row is read outside its bounds). *)
Inductive PrimitiveValue : Type :=
| PVundefined
| PVnull
| PVstring (s : string)
| PVnumber (n : num)
| PVboolean (b : bool)
| PVdate (d : JSDate).

(** A column: [roles] is the set of role names the column is bound to. *)
Record DataViewMetadataColumn : Type := {
  roles : list string
}.

Record DataViewTable : Type := {
  columns : list DataViewMetadataColumn;
  rows : list (list PrimitiveValue)
}.

Record DataView : Type := {
  table : option DataViewTable
}.

(** [VisualSettings] (declared in [./settings], not part of the sources):
    the three fields [update] reads. *)
Record VisualSettings : Type := {
  dataPoint_layout : string;
  displayYears_PreviousYear : Z;
  displayYears_FutureYear : Z
}.

Inductive Granularity : Type := Month | Year.

(** A d3 scale, described by what the code configures: its domain and its
    range. *)
Record TimeScale : Type := {
  ts_domain : JSDate * JSDate;
  ts_range : Q * Q
}.

Record LinearScale : Type := {
  ls_domain : Q * Q;
  ls_range : Q * Q
}.

(* ------------------------------------------------------------------ *)
(** ** What the code asks of its environment *)

Class Host : Type := {
  (** offset of local time from UTC, in milliseconds *)
  LocalTZA : Z;
  (** [Date.parse]: a time value, or NaN *)
  Date_parse : string -> inum;
  (** [Number.prototype.toString], [Date.prototype.toString] *)
  Number_toString : num -> string;
  Date_toString : JSDate -> string;
  (** [VisualSettings.parse] *)
  parseSettings : option DataView -> VisualSettings;
  (** [host.createSelectionIdBuilder().withTable(t, i).createSelectionId()] *)
  ISelectionId : Type;
  createSelectionId : DataViewTable -> nat -> ISelectionId;
  (** the packages sanitize-html and valid-data-url *)
  sanitizeHtml : option string -> string;
  validDataUrl : option string -> bool;
  (** applying a d3 scale *)
  scaleTime : TimeScale -> option JSDate -> num;
  scaleLinear : LinearScale -> Q -> num;
  (** the dates at which a d3 axis over the scale puts its ticks *)
  axisTicks : Granularity -> TimeScale -> list JSDate
}.

Section LocalDates.
Context {host : Host}.

Definition LocalTime (t : Z) : Z := t + LocalTZA.
Definition UTC (t : Z) : Z := t - LocalTZA.

Definition getFullYear (d : JSDate) : inum :=
  match d with
  | ValidDate t => Some (YearFromTime (LocalTime t))
  | InvalidDate => NaN
  end.

Definition getMonth (d : JSDate) : inum :=
  match d with
  | ValidDate t => Some (MonthFromTime (LocalTime t))
  | InvalidDate => NaN
  end.

Definition getDate (d : JSDate) : inum :=
  match d with
  | ValidDate t => Some (DateFromTime (LocalTime t))
  | InvalidDate => NaN
  end.

(** [new Date(year, month, date)], a local time.  A year from 0 to 99
    stands for 1900 + year. *)
Definition new_Date (year month : inum) (date : Z) : JSDate :=
  match year, month with
  | Some y, Some m =>
      let yr := if (0 <=? y) && (y <=? 99) then 1900 + y else y in
      TimeClip (UTC (MakeDate (MakeDay yr m date) 0))
  | _, _ => InvalidDate
  end.

End LocalDates.

(* ------------------------------------------------------------------ *)
(** ** Row extraction: [Visual.CONVERTER] *)

Section Converter.
Context {host : Host}.

Record TimelineData : Type := {
  Company : string;
  Type_ : string;
  Description : option string;
  CompanyLink : option string;
  Date : option JSDate;
  HeaderImage : option string;
  FooterImage : option string;
  selectionId : ISelectionId
}.

(** The seven index variables of [CONVERTER], all -1 at first. *)
Record RoleIndex : Type := {
  _companyIndex : Z;
  _companylinkIndex : Z;
  _typeIndex : Z;
  _descIndex : Z;
  _dateIndex : Z;
  _headerImageIndex : Z;
  _footerImageIndex : Z
}.

Definition noIndex : RoleIndex :=
  {| _companyIndex := -1; _companylinkIndex := -1; _typeIndex := -1;
     _descIndex := -1; _dateIndex := -1; _headerImageIndex := -1;
     _footerImageIndex := -1 |}.

(** [column.roles.hasOwnProperty(role)] *)
Definition hasRole (c : DataViewMetadataColumn) (role : string) : bool :=
  existsb (String.eqb role) (roles c).

(** The body of the column loop: the [else if] chain assigns [ti] to the
    index of the first role of the chain that the column has. *)
Definition bindColumn (ix : RoleIndex) (ti : Z) (c : DataViewMetadataColumn)
  : RoleIndex :=
  if hasRole c "Company" then
    {| _companyIndex := ti; _companylinkIndex := _companylinkIndex ix;
       _typeIndex := _typeIndex ix; _descIndex := _descIndex ix;
       _dateIndex := _dateIndex ix;
       _headerImageIndex := _headerImageIndex ix;
       _footerImageIndex := _footerImageIndex ix |}
  else if hasRole c "Type" then
    {| _companyIndex := _companyIndex ix;
       _companylinkIndex := _companylinkIndex ix;
       _typeIndex := ti; _descIndex := _descIndex ix;
       _dateIndex := _dateIndex ix;
       _headerImageIndex := _headerImageIndex ix;
       _footerImageIndex := _footerImageIndex ix |}
  else if hasRole c "Description" then
    {| _companyIndex := _companyIndex ix;
       _companylinkIndex := _companylinkIndex ix;
       _typeIndex := _typeIndex ix; _descIndex := ti;
       _dateIndex := _dateIndex ix;
       _headerImageIndex := _headerImageIndex ix;
       _footerImageIndex := _footerImageIndex ix |}
  else if hasRole c "CompanyLink" then
    {| _companyIndex := _companyIndex ix; _companylinkIndex := ti;
       _typeIndex := _typeIndex ix; _descIndex := _descIndex ix;
       _dateIndex := _dateIndex ix;
       _headerImageIndex := _headerImageIndex ix;
       _footerImageIndex := _footerImageIndex ix |}
  else if hasRole c "Date" then
    {| _companyIndex := _companyIndex ix;
       _companylinkIndex := _companylinkIndex ix;
       _typeIndex := _typeIndex ix; _descIndex := _descIndex ix;
       _dateIndex := ti;
       _headerImageIndex := _headerImageIndex ix;
       _footerImageIndex := _footerImageIndex ix |}
  else if hasRole c "HeaderImage" then
    {| _companyIndex := _companyIndex ix;
       _companylinkIndex := _companylinkIndex ix;
       _typeIndex := _typeIndex ix; _descIndex := _descIndex ix;
       _dateIndex := _dateIndex ix;
       _headerImageIndex := ti;
       _footerImageIndex := _footerImageIndex ix |}
  else if hasRole c "FooterImage" then
    {| _companyIndex := _companyIndex ix;
       _companylinkIndex := _companylinkIndex ix;
       _typeIndex := _typeIndex ix; _descIndex := _descIndex ix;
       _dateIndex := _dateIndex ix;
       _headerImageIndex := _headerImageIndex ix;
       _footerImageIndex := ti |}
  else ix.

(** [for (ti = 0; ti < _columns.length; ti++)], entered at [ti]. *)
Fixpoint columnLoop (cols : list DataViewMetadataColumn) (ti : Z)
  (ix : RoleIndex) : RoleIndex :=
  match cols with
  | [] => ix
  | c :: cols' => columnLoop cols' (ti + 1) (bindColumn ix ti c)
  end.

Definition roleIndexes (cols : list DataViewMetadataColumn) : RoleIndex :=
  columnLoop cols 0 noIndex.

(** [row[i]]: [undefined] outside the row, as for the initial index -1. *)
Definition rowAt (row : list PrimitiveValue) (i : Z) : PrimitiveValue :=
  if i <? 0 then PVundefined else nth (Z.to_nat i) row PVundefined.

(** The truth value of a cell in a condition. *)
Definition truthy (v : PrimitiveValue) : bool :=
  match v with
  | PVundefined | PVnull => false
  | PVstring s => negb (String.eqb s "")
  | PVnumber None => false
  | PVnumber (Some q) => negb (Qeq_bool q 0)
  | PVboolean b => b
  | PVdate _ => true
  end.

(** [v.toString()]: a [TypeError] on [null] and [undefined]. *)
Definition toString (v : PrimitiveValue) : result string :=
  match v with
  | PVundefined | PVnull => Throw TypeError
  | PVstring s => Ok s
  | PVnumber n => Ok (Number_toString n)
  | PVboolean b => Ok (if b then "true" else "false")
  | PVdate d => Ok (Date_toString d)
  end.

(** [v ? v.toString() : null] *)
Definition stringOrNull (v : PrimitiveValue) : result (option string) :=
  if truthy v then s <- toString v ;; Ok (Some s) else Ok None.

(** The object [dp] built from row [i]. *)
Definition convertRow (tableView : DataViewTable) (ix : RoleIndex)
  (i : nat) (row : list PrimitiveValue) : result TimelineData :=
  company <- toString (rowAt row (_companyIndex ix)) ;;
  type <- (if truthy (rowAt row (_typeIndex ix))
           then toString (rowAt row (_typeIndex ix)) else Ok "") ;;
  description <- stringOrNull (rowAt row (_descIndex ix)) ;;
  companyLink <- stringOrNull (rowAt row (_companylinkIndex ix)) ;;
  date <- (if truthy (rowAt row (_dateIndex ix))
           then s <- toString (rowAt row (_dateIndex ix)) ;;
                Ok (Some (new_Date_num (Date_parse s)))
           else Ok None) ;;
  headerImage <- stringOrNull (rowAt row (_headerImageIndex ix)) ;;
  footerImage <- stringOrNull (rowAt row (_footerImageIndex ix)) ;;
  Ok {| Company := company; Type_ := type; Description := description;
        CompanyLink := companyLink; Date := date;
        HeaderImage := headerImage; FooterImage := footerImage;
        selectionId := createSelectionId tableView i |}.

(** [for (i = 0; i < _rows.length; i++)], entered at [i]. *)
Fixpoint rowLoop (tableView : DataViewTable) (ix : RoleIndex) (i : nat)
  (rs : list (list PrimitiveValue)) : result (list TimelineData) :=
  match rs with
  | [] => Ok []
  | row :: rs' =>
      dp <- convertRow tableView ix i row ;;
      rest <- rowLoop tableView ix (S i) rs' ;;
      Ok (dp :: rest)
  end.

(** [CONVERTER(dataView, host)]; [dataView] is [options.dataViews[0]],
    [undefined] when there is none. *)
Definition CONVERTER (dataView : option DataView)
  : result (list TimelineData) :=
  match dataView with
  | None => Throw TypeError
  | Some dv =>
      match table dv with
      | None => Throw TypeError
      | Some tableView =>
          rowLoop tableView (roleIndexes (columns tableView)) 0
                  (rows tableView)
      end
  end.

End Converter.

(* ------------------------------------------------------------------ *)
(** ** The visual: its fields and its methods *)

(** An entry of [colorDataByYear]; [color] is [undefined] ([None]) when the
    palette has no element at the index read. *)
Record ColorData : Type := {
  year : Z;
  color : option string
}.

(** The fields of [Visual] that the methods below assign.  They are
    [undefined] until assigned. *)
Record Visual : Type := {
  settings : option VisualSettings;
  xScale : option TimeScale;
  yScale : option LinearScale;
  colorDataByYear : option (list ColorData)
}.

Definition newVisual : Visual :=
  {| settings := None; xScale := None; yScale := None;
     colorDataByYear := None |}.

(** A method: it runs on the object, may assign fields and may throw; the
    fields assigned before a throw stay assigned. *)
Definition M (A : Type) : Type := Visual -> result A * Visual.

Definition ret {A : Type} (a : A) : M A := fun v => (Ok a, v).

Definition bindM {A B : Type} (m : M A) (k : A -> M B) : M B :=
  fun v =>
    match m v with
    | (Ok a, v') => k a v'
    | (Throw e, v') => (Throw e, v')
    end.

Definition lift {A : Type} (r : result A) : M A := fun v => (r, v).

(** Reading a field and using it: a [TypeError] while it is [undefined]. *)
Definition field {A : Type} (f : Visual -> option A) : M A :=
  fun v =>
    match f v with
    | Some a => (Ok a, v)
    | None => (Throw TypeError, v)
    end.

Definition set_settings (s : VisualSettings) : M unit :=
  fun v => (Ok tt, {| settings := Some s; xScale := xScale v;
                      yScale := yScale v;
                      colorDataByYear := colorDataByYear v |}).

Definition set_xScale (s : TimeScale) : M unit :=
  fun v => (Ok tt, {| settings := settings v; xScale := Some s;
                      yScale := yScale v;
                      colorDataByYear := colorDataByYear v |}).

Definition set_yScale (s : LinearScale) : M unit :=
  fun v => (Ok tt, {| settings := settings v; xScale := xScale v;
                      yScale := Some s;
                      colorDataByYear := colorDataByYear v |}).

Definition set_colorDataByYear (c : list ColorData) : M unit :=
  fun v => (Ok tt, {| settings := settings v; xScale := xScale v;
                      yScale := yScale v; colorDataByYear := Some c |}).

Notation "'do' x <- m ; k" := (bindM m (fun x => k))
  (at level 10, x name, m at level 100, k at level 200) : js_scope.
Notation "m1 >> m2" := (bindM m1 (fun _ => m2))
  (at level 61, right associativity) : js_scope.

(** [this.margin] *)
Module margin.
Definition top : Q := 50.
Definition right : Q := 40.
Definition bottom : Q := 50.
Definition left : Q := 40.
End margin.

(** The four vertical lanes of an event box, named after the argument the
    code gives to [yScale]. *)
Inductive Lane : Type :=
| FarNegative
| NearNegative
| NearPositive
| FarPositive.

Definition laneY (l : Lane) : Q :=
  match l with
  | FarNegative => -100
  | NearNegative => -60
  | NearPositive => 40
  | FarPositive => 90
  end.

(** The [transform] callback of [renderBox]: the lane of the box of
    index [i].  In the first branch [i] is even, so that [i / 2] is the
    exact quotient. *)
Definition boxLane (i : nat) : Lane :=
  let i := Z.of_nat i in
  if i mod 2 =? 0 then
    let count := i / 2 in
    if count mod 2 =? 0 then FarNegative else NearNegative
  else
    let count := Math_ceil (inject_Z i / 2) in
    if count mod 2 =? 0 then FarPositive else NearPositive.

(** The [y2] callback of [renderTimeRangeLines]. *)
Definition lineLane (i : nat) : Lane :=
  let i := Z.of_nat i in
  if i mod 2 =? 0 then
    let count := i / 2 in
    if count mod 2 =? 0 then FarNegative else NearNegative
  else
    let count := Math_ceil (inject_Z i / 2) in
    if count mod 2 =? 0 then FarPositive else NearPositive.

(** The [y1] callback of [renderTimeRangeLines]: the end of the connector
    next to the axis. *)
Definition lineStubY (i : nat) : Q :=
  if Z.of_nat i mod 2 =? 0 then -10 else 10.

(** The palette of [getColorDataByYear]. *)
Definition colors : list string :=
  ["#242B47"; "#D5792E"; "#8EB40E"; "#597DAB"; "#5AC1C4"; "#595959";
   "#154360"; "#0B5345"; "#784212"; "#424949";
   "#17202A"; "#E74C3C"; "#00ff00"; "#0000ff"; "#252D48"].

(** [for (year = y, i = i0; year <= maxYear + 1; year++) push(...)]: the
    loop runs at most [fuel] times. *)
Fixpoint colorLoop (fuel : nat) (y : Z) (i : nat) (maxYear : Z)
  : list ColorData :=
  match fuel with
  | O => []
  | S fuel' =>
      if y <=? maxYear + 1
      then {| year := y; color := nth_error colors i |}
           :: colorLoop fuel' (y + 1) (S i) maxYear
      else []
  end.

(** [colorDataByYear.find(c => c.year === y)] followed by [.color]. *)
Definition findColorData (tbl : list ColorData) (y : inum) : option ColorData :=
  match y with
  | Some y => find (fun c => year c =? y) tbl
  | None => None
  end.

Definition colorOf (tbl : list ColorData) (y : inum) : result (option string) :=
  match findColorData tbl y with
  | Some c => Ok (color c)
  | None => Throw TypeError
  end.

(** What the rendering methods hand to d3, per element. *)
Inductive HeaderFooter : Type :=
| NoImage
| HeaderImg (src : option string)
| FooterImg (src : option string).

Record Axis : Type := {
  ax_granularity : Granularity;
  ax_ticks : list JSDate
}.

Record TickStyle : Type := {
  tick_r : Z;
  tick_stroke : option string;
  tick_fill : option string;
  tick_text_y : Z;
  tick_text_fill : option string
}.

Record Line : Type := {
  x1 : num;
  y1 : num;
  x2 : num;
  y2 : num;
  stroke : option string
}.

(** The four icons of [renderBox] (data URLs in the source). *)
Inductive Icon : Type :=
| NoIcon
| IconClinicalTrials
| IconCommercial
| IconRegulatory
| IconLaunch.

Record Box : Type := {
  box_class : option string;
  box_title : string;
  box_translate : num * num;
  box_circle_fill : option string;
  box_html : string;
  box_text_y : Z;
  box_icon : Icon;
  box_image_y : Z
}.

Record VisualUpdateOptions : Type := {
  dataViews : list DataView;
  viewport_width : Q;
  viewport_height : Q
}.

(** [f(d, i)] for every element in turn, as d3 calls an attribute
    callback; the first throw ends it. *)
Fixpoint mapi {A B : Type} (f : nat -> A -> result B) (i : nat) (l : list A)
  : result (list B) :=
  match l with
  | [] => Ok []
  | a :: l' =>
      b <- f i a ;;
      bs <- mapi f (S i) l' ;;
      Ok (b :: bs)
  end.

Definition dquote : string := String "034"%char EmptyString.

Section Methods.
Context {host : Host}.

(** *** The date window of [update] *)

(** [l.map(d => { if (test(d.Date.getFullYear())) return d; }).filter(e => e)]:
    [d.Date.getFullYear()] throws when [d.Date] is [null]. *)
Fixpoint yearFilter (test : inum -> bool) (l : list TimelineData)
  : result (list TimelineData) :=
  match l with
  | [] => Ok []
  | d :: l' =>
      match Date d with
      | None => Throw TypeError
      | Some dt =>
          rest <- yearFilter test l' ;;
          Ok (if test (getFullYear dt) then d :: rest else rest)
      end
  end.

(** The number [d.Date] converts to in [Math.min.apply]: [null] gives 0. *)
Definition dateNumber (d : TimelineData) : xnum :=
  match Date d with
  | None => Fin 0
  | Some (ValidDate t) => Fin t
  | Some InvalidDate => XNaN
  end.

(** The branch [timelineLocalData.length == 0]. *)
Definition dataWindow (timelineData : list TimelineData)
  : JSDate * JSDate * list TimelineData :=
  let minDate := new_Date_value (Math_min (map dateNumber timelineData)) in
  let maxDate := new_Date_value (Math_max (map dateNumber timelineData)) in
  let minDate := new_Date (getFullYear minDate) (Some 0) 1 in
  let maxDate := new_Date (addZ (getFullYear maxDate) 1) (Some 0) 1 in
  (minDate, maxDate, timelineData).

(** Lines 124 to 142 of [update]: [minDate], [maxDate] and the events to
    draw.  [timelineLocalData] stays empty when [timelineData] is. *)
Definition selectWindow (s : VisualSettings) (currentDate : JSDate)
  (timelineData : list TimelineData)
  : result (JSDate * JSDate * list TimelineData) :=
  if (0 <? List.length timelineData)%nat then
    let minDate :=
      new_Date (addZ (getFullYear currentDate)
                     (- displayYears_PreviousYear s)) (Some 0) 1 in
    l1 <- yearFilter (fun y => ge y (getFullYear minDate)) timelineData ;;
    let maxDate :=
      new_Date (addZ (getFullYear currentDate)
                     (displayYears_FutureYear s)) (Some 0) 1 in
    timelineLocalData <-
      yearFilter (fun y => le y (getFullYear maxDate)) l1 ;;
    if (0 <? List.length timelineLocalData)%nat
    then Ok (minDate, maxDate, timelineLocalData)
    else Ok (dataWindow timelineData)
  else Ok (dataWindow timelineData).

(** *** [getColorDataByYear] *)

Definition colorTable (minDate maxDate : JSDate) : list ColorData :=
  match getFullYear minDate, getFullYear maxDate with
  | Some y0, Some y1 => colorLoop (Z.to_nat (y1 + 2 - y0)) y0 0 y1
  | _, _ => []
  end.

Definition getColorDataByYear (minDate maxDate : JSDate) : M unit :=
  set_colorDataByYear (colorTable minDate maxDate).

(** *** [renderHeaderAndFooter] *)

Definition renderHeaderAndFooter (timelineData : list TimelineData)
  : M HeaderFooter :=
  let timeline := hd_error timelineData in
  do s <- field settings;
  if String.eqb (toLowerCase (dataPoint_layout s)) "header" then
    match timeline with
    | None => lift (Throw TypeError)
    | Some t =>
        ret (HeaderImg (if validDataUrl (HeaderImage t)
                        then HeaderImage t else Some ""))
    end
  else if String.eqb (toLowerCase (dataPoint_layout s)) "footer" then
    match timeline with
    | None => lift (Throw TypeError)
    | Some t =>
        ret (FooterImg (if validDataUrl (FooterImage t)
                        then FooterImage t else Some ""))
    end
  else ret NoImage.

(** *** [diff_years] and [renderXandYAxis] *)

Definition diff_years (dt2 dt1 : JSDate) : inum :=
  match getTime dt2, getTime dt1 with
  | Some t2, Some t1 =>
      let diff := (inject_Z (t2 - t1) / 1000)%Q in
      let diff := (diff / (60 * 60 * 24))%Q in
      Some (Z.abs (Math_round (diff / 365.25)))
  | _, _ => NaN
  end.

(** The scale and the granularity of the axis, before they are stored. *)
Definition xAxisFor (minDate maxDate : JSDate) (gWidth : Q)
  : Granularity * TimeScale :=
  if le (diff_years minDate maxDate) (Some 1) then
    let minDateMonthUpdated :=
      new_Date (getFullYear minDate) (addZ (getMonth minDate) (-1)) 1 in
    let maxDateMonthUpdated :=
      new_Date (getFullYear maxDate) (addZ (getMonth maxDate) 1) 1 in
    (Month, {| ts_domain := (minDateMonthUpdated, maxDateMonthUpdated);
               ts_range := (margin.left, gWidth) |})
  else
    (Year, {| ts_domain := (minDate, maxDate);
              ts_range := (margin.left, gWidth) |}).

Definition renderXandYAxis (minDate maxDate : JSDate) (gWidth gHeight : Q)
  : M Axis :=
  let (g, xs) := xAxisFor minDate maxDate gWidth in
  set_xScale xs >>
  set_yScale {| ls_domain := ((-105)%Q, 105%Q);
                ls_range := (gHeight, margin.top) |} >>
  ret {| ax_granularity := g; ax_ticks := axisTicks g xs |}.

(** *** [renderXAxisCirclesAndQuarters] *)

Definition tickStyle (tbl : list ColorData) (tickLength : nat)
  (i : nat) (d : JSDate) : result TickStyle :=
  if (Z.of_nat i =? 0) || (Z.of_nat i =? Z.of_nat tickLength - 1) then
    Ok {| tick_r := 27; tick_stroke := Some "#868686";
          tick_fill := Some "#bfbfbf"; tick_text_y := 0;
          tick_text_fill := Some "#bfbfbf" |}
  else
    c <- colorOf tbl (getFullYear d) ;;
    Ok {| tick_r := 10; tick_stroke := c; tick_fill := c;
          tick_text_y := -30; tick_text_fill := c |}.

Definition renderXAxisCirclesAndQuarters (ticks : list JSDate)
  : M (list TickStyle) :=
  do tbl <- field colorDataByYear;
  lift (mapi (tickStyle tbl (List.length ticks)) 0 ticks).

(** *** [renderTimeRangeLines] *)

(** The colour of an event: [find(c => c.year === d.Date.getFullYear())]
    and then [.color]. *)
Definition eventColor (tbl : list ColorData) (d : TimelineData)
  : result (option string) :=
  match Date d with
  | None => Throw TypeError
  | Some dt => colorOf tbl (getFullYear dt)
  end.

(** [isNaN(xScale(d.Date)) ? 0 : (xScale(d.Date) + 20)] *)
Definition lineX (xs : TimeScale) (d : TimelineData) : num :=
  if isNaN (scaleTime xs (Date d)) then Some 0%Q
  else addQ (scaleTime xs (Date d)) 20.

Definition lineOf (xs : TimeScale) (ys : LinearScale)
  (tbl : list ColorData) (i : nat) (d : TimelineData) : result Line :=
  c <- eventColor tbl d ;;
  Ok {| x1 := lineX xs d;
        y1 := scaleLinear ys (lineStubY i);
        x2 := lineX xs d;
        y2 := scaleLinear ys (laneY (lineLane i));
        stroke := c |}.

Definition renderTimeRangeLines (gHeight : Q)
  (timelineData : list TimelineData) : M (list Line) :=
  match timelineData with
  | [] => ret []
  | _ =>
      do xs <- field xScale;
      do ys <- field yScale;
      do tbl <- field colorDataByYear;
      lift (mapi (lineOf xs ys tbl) 0 timelineData)
  end.

(** *** [renderBox] *)

Definition boxClass (d : TimelineData) : option string :=
  if String.eqb (Type_ d) "Regulatory" then Some "rect regulatory"
  else if String.eqb (Type_ d) "Commercial" then Some "rect commercial"
  else if String.eqb (Type_ d) "Clinical Trails"
       then Some "rect clinical-trails"
  else None.

Definition boxIcon (d : TimelineData) : Icon :=
  if String.eqb (Type_ d) "Clinical Trials" then IconClinicalTrials
  else if String.eqb (Type_ d) "Commercial" then IconCommercial
  else if String.eqb (Type_ d) "Regulatory" then IconRegulatory
  else if String.eqb (Type_ d) "Launch" then IconLaunch
  else NoIcon.

(** [d.Date] in a string concatenation. *)
Definition dateText (d : TimelineData) : string :=
  match Date d with
  | None => "null"
  | Some dt => Date_toString dt
  end.

Definition boxHtml (d : TimelineData) : string :=
  let company :=
    "<div><a href=" ++ dquote ++ sanitizeHtml (CompanyLink d)
    ++ dquote ++ " style=" ++ dquote ++ "color:" ++ "#000000" ++ ";"
    ++ dquote ++ ">"
    ++ (if negb (String.eqb (Company d) "")
        then sanitizeHtml (Some (Company d)) else "")
    ++ "</a></div>" in
  "<div>" ++ company ++ sanitizeHtml (Description d) ++ "</div>".

Definition boxOf (xs : TimeScale) (ys : LinearScale)
  (tbl : list ColorData) (i : nat) (d : TimelineData) : result Box :=
  c <- eventColor tbl d ;;
  Ok {| box_class := boxClass d;
        box_title := sanitizeHtml (Description d) ++ "(" ++ dateText d ++ ")";
        box_translate :=
          (addQ (scaleTime xs (Date d)) (-25),
           scaleLinear ys (laneY (boxLane i)));
        box_circle_fill := c;
        box_html := boxHtml d;
        box_text_y := if Z.of_nat i mod 2 =? 0 then -5 else -70;
        box_icon := boxIcon d;
        box_image_y := if Z.of_nat i mod 2 =? 0 then -50 else -35 |}.

Definition renderBox (timelineData : list TimelineData) (gWidth gHeight : Q)
  : M (list Box) :=
  match timelineData with
  | [] => ret []
  | _ =>
      do xs <- field xScale;
      do ys <- field yScale;
      do tbl <- field colorDataByYear;
      lift (mapi (boxOf xs ys tbl) 0 timelineData)
  end.

(** *** [handleHyperLinkClick]: the URL given to [host.launchUrl] *)

Definition baseurl : string := "https://strategicanalysisinc.sharepoint.com".

Definition launchedUrl (link : string) : string :=
  if (indexOf link "http" =? -1) || (0 <? indexOf link "http")
  then baseurl ++ link
  else link.

(** *** [update] *)

Record Rendered : Type := {
  r_minDate : JSDate;
  r_maxDate : JSDate;
  r_timelineData : list TimelineData;
  r_header : HeaderFooter;
  r_axis : Axis;
  r_ticks : list TickStyle;
  r_lines : list Line;
  r_boxes : list Box
}.

Definition isHeaderOrFooter (s : VisualSettings) : bool :=
  String.eqb (toLowerCase (dataPoint_layout s)) "header"
  || String.eqb (toLowerCase (dataPoint_layout s)) "footer".

(** Lines 122 and 123: extraction and the cap of 100 events. *)
Definition extract (dataView : option DataView)
  : result (list TimelineData) :=
  timelineData <- CONVERTER dataView ;;
  Ok (slice0 100 timelineData).

(** [update(options)], with [currentDate] the reading of the clock. *)
Definition update (options : VisualUpdateOptions) (currentDate : JSDate)
  : M Rendered :=
  let dataView := hd_error (dataViews options) in
  set_settings (parseSettings dataView) >>
  do s <- field settings;
  let vpWidth := viewport_width options in
  let vpHeight :=
    if isHeaderOrFooter s
    then (viewport_height options - 105)%Q
    else viewport_height options in
  let gHeight := (vpHeight - margin.top - margin.bottom)%Q in
  let gWidth := (vpWidth - margin.left - margin.right)%Q in
  do timelineData <- lift (extract dataView);
  do w <- lift (selectWindow s currentDate timelineData);
  let '(minDate, maxDate, timelineData) := w in
  getColorDataByYear minDate maxDate >>
  do hf <- renderHeaderAndFooter timelineData;
  do axis <- renderXandYAxis minDate maxDate gWidth gHeight;
  do ticks <- renderXAxisCirclesAndQuarters (ax_ticks axis);
  do lines <- renderTimeRangeLines gHeight timelineData;
  do boxes <- renderBox timelineData gWidth gHeight;
  ret {| r_minDate := minDate; r_maxDate := maxDate;
         r_timelineData := timelineData; r_header := hf;
         r_axis := axis; r_ticks := ticks; r_lines := lines;
         r_boxes := boxes |}.

End Methods.

(* ------------------------------------------------------------------ *)
(** ** A host to run the code on

    The environment used where a statement is checked on concrete data:
    UTC as the local zone, a [Date.parse] that reads [YYYY-MM-DD], the
    linear interpolation of d3's continuous scales, and an axis with one
    tick at each start of a year (or month) inside the domain. *)

Module Sample.

Definition digit (c : ascii) : option Z :=
  let n := nat_of_ascii c in
  if (48 <=? n)%nat && (n <=? 57)%nat then Some (Z.of_nat n - 48) else None.

Fixpoint digits (acc : Z) (s : string) : option Z :=
  match s with
  | EmptyString => Some acc
  | String c s' =>
      match digit c with
      | Some d => digits (10 * acc + d) s'
      | None => None
      end
  end.

(** [YYYY-MM-DD], read as midnight UTC; anything else does not parse. *)
Definition parse (s : string) : inum :=
  if (String.length s =? 10)%nat
     && String.eqb (substring 4 1 s) "-"
     && String.eqb (substring 7 1 s) "-"
  then
    match digits 0 (substring 0 4 s), digits 0 (substring 5 2 s),
          digits 0 (substring 8 2 s) with
    | Some y, Some m, Some d =>
        if (1 <=? m) && (m <=? 12) && (1 <=? d) && (d <=? 31)
        then Some (MakeDate (MakeDay y (m - 1) d) 0)
        else NaN
    | _, _, _ => NaN
    end
  else NaN.

Definition interpolate (d0 d1 r0 r1 x : Q) : num :=
  if Qeq_bool d0 d1 then NaN
  else Some (r0 + (x - d0) / (d1 - d0) * (r1 - r0))%Q.

Definition timeScale (xs : TimeScale) (d : option JSDate) : num :=
  match ts_domain xs, d with
  | (ValidDate t0, ValidDate t1), Some (ValidDate t) =>
      interpolate (inject_Z t0) (inject_Z t1)
                  (fst (ts_range xs)) (snd (ts_range xs)) (inject_Z t)
  | (ValidDate t0, ValidDate t1), None =>
      interpolate (inject_Z t0) (inject_Z t1)
                  (fst (ts_range xs)) (snd (ts_range xs)) 0
  | _, _ => NaN
  end.

Definition linearScale (ys : LinearScale) (y : Q) : num :=
  interpolate (fst (ls_domain ys)) (snd (ls_domain ys))
              (fst (ls_range ys)) (snd (ls_range ys)) y.

(** The month count [12 * year + month] of a time value, and the time at
    which a month count begins (UTC). *)
Definition monthCount (t : Z) : Z := 12 * YearFromTime t + MonthFromTime t.
Definition monthStart (m : Z) : Z := MakeDate (MakeDay 0 m 1) 0.

Definition ticks (g : Granularity) (xs : TimeScale) : list JSDate :=
  match ts_domain xs with
  | (ValidDate t0, ValidDate t1) =>
      let step := match g with Month => 1 | Year => 12 end in
      let first := - ((- monthCount t0) / step) in
      let first := if monthStart (first * step) <? t0
                   then first + 1 else first in
      let last := monthCount t1 / step in
      map (fun k => ValidDate (monthStart ((first + Z.of_nat k) * step)))
          (seq 0 (Z.to_nat (last - first + 1)))
  | _ => []
  end.

Definition sanitize (s : option string) : string :=
  match s with
  | Some s => s
  | None => ""
  end.

Definition isDataUrl (s : option string) : bool :=
  match s with
  | Some s => prefix "data:" s
  | None => false
  end.

(** The host, for given settings. *)
Definition hostWith (s : VisualSettings) : Host :=
  {| LocalTZA := 0;
     Date_parse := parse;
     Number_toString := fun _ => "0";
     Date_toString := fun _ => "Invalid Date";
     parseSettings := fun _ => s;
     ISelectionId := nat;
     createSelectionId := fun _ i => i;
     sanitizeHtml := sanitize;
     validDataUrl := isDataUrl;
     scaleTime := timeScale;
     scaleLinear := linearScale;
     axisTicks := ticks |}.

Definition defaults : VisualSettings :=
  {| dataPoint_layout := "None";
     displayYears_PreviousYear := 1;
     displayYears_FutureYear := 8 |}.

Definition withHeader : VisualSettings :=
  {| dataPoint_layout := "Header";
     displayYears_PreviousYear := 1;
     displayYears_FutureYear := 8 |}.

Definition column (role : string) : DataViewMetadataColumn :=
  {| roles := [role] |}.

(** Company, Type, Description, Date. *)
Definition fourColumns : list DataViewMetadataColumn :=
  [column "Company"; column "Type"; column "Description"; column "Date"].

Definition row (company type desc date : string) : list PrimitiveValue :=
  [PVstring company; PVstring type; PVstring desc; PVstring date].

Definition view (rs : list (list PrimitiveValue)) : option DataView :=
  Some {| table := Some {| columns := fourColumns; rows := rs |} |}.

Definition options (rs : list (list PrimitiveValue)) : VisualUpdateOptions :=
  {| dataViews := [{| table := Some {| columns := fourColumns; rows := rs |} |}];
     viewport_width := 1000; viewport_height := 600 |}.

(** The three events of 2022-03-01, 2023-07-15 and 2021-11-01. *)
Definition threeRows : list (list PrimitiveValue) :=
  [row "A" "Regulatory" "filing" "2022-03-01";
   row "B" "Commercial" "deal" "2023-07-15";
   row "C" "Launch" "launch" "2021-11-01"].

(** 2024-06-15, the clock of the examples, as a time value. *)
Definition clock : Z := 1718409600000.
Definition now : JSDate := ValidDate clock.

Definition host : Host := hostWith defaults.

(** The event extracted from a row of [fourColumns]. *)
Definition event (company type desc date : string) (i : nat)
  : @TimelineData host :=
  @Build_TimelineData host company type (Some desc) None
    (Some (new_Date_num (parse date))) None None i.

Definition e2022 : @TimelineData host :=
  event "A" "Regulatory" "filing" "2022-03-01" 0.
Definition e2023 : @TimelineData host :=
  event "B" "Commercial" "deal" "2023-07-15" 1.
Definition e2021 : @TimelineData host :=
  event "C" "Launch" "launch" "2021-11-01" 2.

(** What [update] draws for the three rows at the clock of the
    examples. *)
Definition drawn : @Rendered host :=
  match fst (update (host := host) (options threeRows) now newVisual) with
  | Ok r => r
  | Throw _ =>
      {| r_minDate := InvalidDate; r_maxDate := InvalidDate;
         r_timelineData := []; r_header := NoImage;
         r_axis := {| ax_granularity := Year; ax_ticks := [] |};
         r_ticks := []; r_lines := []; r_boxes := [] |}
  end.

(** An event of 2010, and one whose date cell, [soon], does not parse. *)
Definition e2010 : @TimelineData host :=
  event "E" "Launch" "launch" "2010-05-05" 0.
Definition eSoon : @TimelineData host :=
  event "F" "Launch" "launch" "soon" 1.

End Sample.

(* ------------------------------------------------------------------ *)
(** ** Vocabulary of the statements *)

Section Vocabulary.
Context {host : Host}.

(** Midnight, local time, of January 1 of year [y]. *)
Definition Jan1 (y : Z) : JSDate := ValidDate (TimeFromYear y - LocalTZA).

(** Midnight, local time, of the first day of month [m] (0 = January) of
    year [y]. *)
Definition firstOf (y m : Z) : JSDate :=
  ValidDate (MakeDate (MakeDay y m 1) 0 - LocalTZA).

(** Years for which [new Date(y, 0, 1)] is January 1 of [y]: not one of
    the two-digit years 0..99, and inside the range of time values. *)
Definition plainYear (y : Z) : Prop := 100 <= y <= 275001.

(** The local zone is within a day of UTC. *)
Definition zoneWithinADay : Prop := Z.abs LocalTZA <= msPerDay.

(** The year of an event with a valid date. *)
Definition eventYear (d : TimelineData) : inum :=
  match Date d with
  | Some dt => getFullYear dt
  | None => NaN
  end.

(** An event with a valid date in a year from 100 to 275000. *)
Definition plainEvent (d : TimelineData) : Prop :=
  exists t, Date d = Some (ValidDate t)
            /\ 100 <= YearFromTime (LocalTime t) <= 275000.

(** The event lies in the years [lo..hi]. *)
Definition inYears (lo hi : Z) (d : TimelineData) : bool :=
  ge (eventYear d) (Some lo) && le (eventYear d) (Some hi).

(** The years of the configured window: the current year less
    [PreviousYear], and plus [FutureYear]. *)
Definition candidateLo (s : VisualSettings) (now : Z) : Z :=
  YearFromTime (LocalTime now) - displayYears_PreviousYear s.

Definition candidateHi (s : VisualSettings) (now : Z) : Z :=
  YearFromTime (LocalTime now) + displayYears_FutureYear s.

(** [null] or [undefined]. *)
Definition isNullish (v : PrimitiveValue) : bool :=
  match v with
  | PVundefined | PVnull => true
  | _ => false
  end.

(** The roles, in the order of the [else if] chain of [CONVERTER]. *)
Inductive Role : Type :=
| RCompany
| RType
| RDescription
| RCompanyLink
| RDate
| RHeaderImage
| RFooterImage.

(** The role a column counts for: the first of the chain that it has. *)
Definition boundRole (c : DataViewMetadataColumn) : option Role :=
  if hasRole c "Company" then Some RCompany
  else if hasRole c "Type" then Some RType
  else if hasRole c "Description" then Some RDescription
  else if hasRole c "CompanyLink" then Some RCompanyLink
  else if hasRole c "Date" then Some RDate
  else if hasRole c "HeaderImage" then Some RHeaderImage
  else if hasRole c "FooterImage" then Some RFooterImage
  else None.

Definition indexFor (r : Role) (ix : RoleIndex) : Z :=
  match r with
  | RCompany => _companyIndex ix
  | RType => _typeIndex ix
  | RDescription => _descIndex ix
  | RCompanyLink => _companylinkIndex ix
  | RDate => _dateIndex ix
  | RHeaderImage => _headerImageIndex ix
  | RFooterImage => _footerImageIndex ix
  end.

(** The quantity of the specification: the absolute span of the window
    in days, divided by 365.25 and rounded. *)
Definition spanYears (minDate maxDate : JSDate) : inum :=
  match getTime maxDate, getTime minDate with
  | Some b, Some a =>
      Some (Math_round (Qabs (inject_Z (b - a) / inject_Z msPerDay)
                        / 365.25))
  | _, _ => NaN
  end.

(** [update] without the object: the same stages, the settings, the
    colour table and the two scales being handed from one stage to the
    next as values instead of through fields. *)
Definition headerFooterOf (s : VisualSettings) (timelineData : list TimelineData)
  : result HeaderFooter :=
  if String.eqb (toLowerCase (dataPoint_layout s)) "header" then
    match hd_error timelineData with
    | None => Throw TypeError
    | Some t => Ok (HeaderImg (if validDataUrl (HeaderImage t)
                               then HeaderImage t else Some ""))
    end
  else if String.eqb (toLowerCase (dataPoint_layout s)) "footer" then
    match hd_error timelineData with
    | None => Throw TypeError
    | Some t => Ok (FooterImg (if validDataUrl (FooterImage t)
                               then FooterImage t else Some ""))
    end
  else Ok NoImage.

Definition plotHeight (s : VisualSettings) (options : VisualUpdateOptions) : Q :=
  ((if isHeaderOrFooter s
    then (viewport_height options - 105)%Q
    else viewport_height options) - margin.top - margin.bottom)%Q.

Definition plotWidth (options : VisualUpdateOptions) : Q :=
  (viewport_width options - margin.left - margin.right)%Q.

Definition yScaleOf (s : VisualSettings) (options : VisualUpdateOptions)
  : LinearScale :=
  {| ls_domain := ((-105)%Q, 105%Q);
     ls_range := (plotHeight s options, margin.top) |}.

Definition render (options : VisualUpdateOptions) (currentDate : JSDate)
  : result Rendered :=
  let dataView := hd_error (dataViews options) in
  let s := parseSettings dataView in
  timelineData <- extract dataView ;;
  w <- selectWindow s currentDate timelineData ;;
  let tbl := colorTable (fst (fst w)) (snd (fst w)) in
  let gx := xAxisFor (fst (fst w)) (snd (fst w)) (plotWidth options) in
  let ticks := axisTicks (fst gx) (snd gx) in
  hf <- headerFooterOf s (snd w) ;;
  tks <- mapi (tickStyle tbl (List.length ticks)) 0 ticks ;;
  lines <- mapi (lineOf (snd gx) (yScaleOf s options) tbl) 0 (snd w) ;;
  boxes <- mapi (boxOf (snd gx) (yScaleOf s options) tbl) 0 (snd w) ;;
  Ok {| r_minDate := fst (fst w); r_maxDate := snd (fst w);
        r_timelineData := snd w; r_header := hf;
        r_axis := {| ax_granularity := fst gx; ax_ticks := ticks |};
        r_ticks := tks; r_lines := lines; r_boxes := boxes |}.

(** The fields of the object after an [update] that ran to its end. *)
Definition rendered_state (options : VisualUpdateOptions) (r : Rendered)
  : Visual :=
  let s := parseSettings (hd_error (dataViews options)) in
  {| settings := Some s;
     xScale := Some (snd (xAxisFor (r_minDate r) (r_maxDate r)
                                   (plotWidth options)));
     yScale := Some (yScaleOf s options);
     colorDataByYear := Some (colorTable (r_minDate r) (r_maxDate r)) |}.

(** Least and greatest year of a list of events, from a first one. *)
Definition yearOr (y0 : Z) (d : TimelineData) : Z :=
  match eventYear d with
  | Some y => y
  | None => y0
  end.

Definition minYear (d0 : TimelineData) (l : list TimelineData) : Z :=
  fold_left (fun m d => Z.min m (yearOr m d)) l (yearOr 0 d0).

Definition maxYear (d0 : TimelineData) (l : list TimelineData) : Z :=
  fold_left (fun m d => Z.max m (yearOr m d)) l (yearOr 0 d0).

End Vocabulary.

(* ------------------------------------------------------------------ *)
(** ** Calendar arithmetic *)

Module ESDateFacts.

Lemma DayFromYear_lt (y y' : Z) : y < y' -> DayFromYear y < DayFromYear y'.
Proof. unfold DayFromYear. intros H. Z.div_mod_to_equations. lia. Qed.

Lemma DayFromYear_le (y y' : Z) : y <= y' -> DayFromYear y <= DayFromYear y'.
Proof. unfold DayFromYear. intros H. Z.div_mod_to_equations. lia. Qed.

Lemma DayFromYear_next (y : Z) :
  DayFromYear (y + 1) = DayFromYear y + DaysInYear y.
Proof.
  unfold DayFromYear, DaysInYear.
  destruct (Z.eqb_spec (y mod 4) 0); cbn [negb];
    [destruct (Z.eqb_spec (y mod 100) 0); cbn [negb];
     [destruct (Z.eqb_spec (y mod 400) 0); cbn [negb]|]|];
    Z.div_mod_to_equations; lia.
Qed.

Lemma YearFromDay_bounds (d : Z) :
  DayFromYear (YearFromDay d) <= d < DayFromYear (YearFromDay d + 1).
Proof.
  unfold YearFromDay. cbv zeta.
  destruct (Z.ltb_spec d (DayFromYear (1970 + 400 * d / 146097))) as [H|H].
  - unfold DayFromYear in *. Z.div_mod_to_equations. lia.
  - destruct (Z.leb_spec (DayFromYear (1970 + 400 * d / 146097 + 1)) d)
      as [H'|H'].
    + unfold DayFromYear in *. Z.div_mod_to_equations. lia.
    + lia.
Qed.

Lemma YearFromDay_unique (d y : Z) :
  DayFromYear y <= d < DayFromYear (y + 1) -> YearFromDay d = y.
Proof.
  intros H. pose proof (YearFromDay_bounds d) as B.
  destruct (Z.lt_trichotomy (YearFromDay d) y) as [L|[E|G]]; [|exact E|].
  - pose proof (DayFromYear_le (YearFromDay d + 1) y ltac:(lia)). lia.
  - pose proof (DayFromYear_le (y + 1) (YearFromDay d) ltac:(lia)). lia.
Qed.

Lemma YearFromDay_mono (d d' : Z) :
  d <= d' -> YearFromDay d <= YearFromDay d'.
Proof.
  intros H. pose proof (YearFromDay_bounds d) as B.
  pose proof (YearFromDay_bounds d') as B'.
  destruct (Z.le_gt_cases (YearFromDay d) (YearFromDay d')) as [L|G];
    [exact L|].
  pose proof (DayFromYear_le (YearFromDay d' + 1) (YearFromDay d)
                ltac:(lia)). lia.
Qed.

Lemma Day_mono (t t' : Z) : t <= t' -> Day t <= Day t'.
Proof. unfold Day, msPerDay. intros H. Z.div_mod_to_equations. lia. Qed.

Lemma YearFromTime_mono (t t' : Z) :
  t <= t' -> YearFromTime t <= YearFromTime t'.
Proof.
  intros H. unfold YearFromTime. apply YearFromDay_mono, Day_mono, H.
Qed.

Lemma Day_TimeFromYear (y : Z) : Day (TimeFromYear y) = DayFromYear y.
Proof.
  unfold Day, TimeFromYear, msPerDay.
  generalize (DayFromYear y). intros n. Z.div_mod_to_equations. lia.
Qed.

Lemma YearFromTime_TimeFromYear (y : Z) : YearFromTime (TimeFromYear y) = y.
Proof.
  unfold YearFromTime. rewrite Day_TimeFromYear.
  apply YearFromDay_unique.
  pose proof (DayFromYear_lt y (y + 1) ltac:(lia)). lia.
Qed.

Lemma MakeDay_Jan1 (y : Z) : MakeDay y 0 1 = DayFromYear y.
Proof.
  unfold MakeDay. cbv zeta.
  change (0 / 12) with 0. change (0 mod 12) with 0.
  rewrite !Z.add_0_r. change (DayOfMonthStart 0 (InLeapYear y)) with 0. lia.
Qed.

Lemma MonthFromTime_TimeFromYear (y : Z) : MonthFromTime (TimeFromYear y) = 0.
Proof.
  unfold MonthFromTime, DayWithinYear.
  rewrite YearFromTime_TimeFromYear, Day_TimeFromYear, Z.sub_diag.
  reflexivity.
Qed.

Lemma DateFromTime_TimeFromYear (y : Z) : DateFromTime (TimeFromYear y) = 1.
Proof.
  unfold DateFromTime. rewrite MonthFromTime_TimeFromYear.
  unfold DayWithinYear.
  rewrite YearFromTime_TimeFromYear, Day_TimeFromYear, Z.sub_diag.
  reflexivity.
Qed.

(** Time values of the years 100 to 275001 are in range, with a day to
    spare. *)
Lemma TimeFromYear_range (y : Z) :
  100 <= y <= 275001 ->
  - maxTime + msPerDay <= TimeFromYear y <= maxTime - msPerDay.
Proof.
  intros [H1 H2].
  pose proof (DayFromYear_le 100 y H1) as L.
  pose proof (DayFromYear_le y 275001 H2) as U.
  change (DayFromYear 100) with (-683003) in L.
  change (DayFromYear 275001) with 99722525 in U.
  unfold TimeFromYear, maxTime, msPerDay. lia.
Qed.

End ESDateFacts.

(* ------------------------------------------------------------------ *)
(** ** Local dates *)

Section LocalDateFacts.
Context {host : Host}.
Import ESDateFacts.

Lemma LocalTime_UTC (t : Z) : LocalTime (UTC t) = t.
Proof. unfold LocalTime, UTC. lia. Qed.

Lemma getFullYear_Jan1 (y : Z) : getFullYear (Jan1 y) = Some y.
Proof.
  unfold Jan1, getFullYear. fold (UTC (TimeFromYear y)).
  rewrite LocalTime_UTC, YearFromTime_TimeFromYear. reflexivity.
Qed.

Lemma getMonth_Jan1 (y : Z) : getMonth (Jan1 y) = Some 0.
Proof.
  unfold Jan1, getMonth. fold (UTC (TimeFromYear y)).
  rewrite LocalTime_UTC, MonthFromTime_TimeFromYear. reflexivity.
Qed.

Lemma getDate_Jan1 (y : Z) : getDate (Jan1 y) = Some 1.
Proof.
  unfold Jan1, getDate. fold (UTC (TimeFromYear y)).
  rewrite LocalTime_UTC, DateFromTime_TimeFromYear. reflexivity.
Qed.

Lemma TimeClip_in_range (t : Z) : Z.abs t <= maxTime -> TimeClip t = ValidDate t.
Proof.
  intros H. unfold TimeClip.
  destruct (Z.ltb_spec maxTime (Z.abs t)); [lia | reflexivity].
Qed.

Lemma new_Date_Jan1 (y : Z) :
  zoneWithinADay -> plainYear y -> new_Date (Some y) (Some 0) 1 = Jan1 y.
Proof.
  unfold zoneWithinADay, plainYear. intros Hz Hy.
  pose proof (TimeFromYear_range y Hy) as R.
  unfold new_Date.
  replace ((0 <=? y) && (y <=? 99)) with false
    by (symmetry; apply andb_false_iff; right; apply Z.leb_gt; lia).
  rewrite MakeDay_Jan1. unfold MakeDate, UTC, Jan1.
  replace (DayFromYear y * msPerDay + 0) with (TimeFromYear y)
    by (unfold TimeFromYear; lia).
  apply TimeClip_in_range. lia.
Qed.

Lemma getFullYear_mono (t t' : Z) :
  t <= t' -> YearFromTime (LocalTime t) <= YearFromTime (LocalTime t').
Proof. intros H. apply YearFromTime_mono. unfold LocalTime. lia. Qed.

(** A time value whose local year is between 100 and 275000 is in
    range. *)
Lemma plain_time_in_range (t : Z) :
  zoneWithinADay ->
  100 <= YearFromTime (LocalTime t) <= 275000 ->
  Z.abs t <= maxTime.
Proof.
  unfold zoneWithinADay, YearFromTime. intros Hz [H1 H2].
  pose proof (YearFromDay_bounds (Day (LocalTime t))) as B.
  pose proof (DayFromYear_le 100 _ H1) as L.
  assert (U : DayFromYear (YearFromDay (Day (LocalTime t)) + 1)
              <= DayFromYear 275001) by (apply DayFromYear_le; lia).
  change (DayFromYear 100) with (-683003) in L.
  change (DayFromYear 275001) with 99722525 in U.
  assert (D : -683003 <= Day (LocalTime t) < 99722525) by lia.
  clear B L U H1 H2. revert D Hz.
  unfold Day, LocalTime, maxTime, msPerDay. intros D Hz.
  Z.div_mod_to_equations. lia.
Qed.

End LocalDateFacts.

(* ------------------------------------------------------------------ *)
(** ** The date window *)

Section WindowFacts.
Context {host : Host}.
Import ESDateFacts.


(** On events that all have a date, the year filter does not throw and
    is [filter]. *)
Lemma yearFilter_dated (test : inum -> bool) (l : list TimelineData) :
  (forall d, In d l -> Date d <> None) ->
  yearFilter test l = Ok (filter (fun d => test (eventYear d)) l).
Proof.
  induction l as [|d l IH]; intros H; [reflexivity|].
  cbn [yearFilter filter]. unfold eventYear at 1.
  destruct (Date d) as [dt|] eqn:E.
  - rewrite IH by (intros d' Hd'; apply H; right; exact Hd').
    cbn [bind]. destruct (test (getFullYear dt)); reflexivity.
  - exfalso. apply (H d); [left; reflexivity | exact E].
Qed.

Lemma filter_filter {A : Type} (p q : A -> bool) (l : list A) :
  filter q (filter p l) = filter (fun a => p a && q a) l.
Proof.
  induction l as [|a l IH]; [reflexivity|].
  cbn [filter]. destruct (p a); cbn [filter andb]; rewrite IH; reflexivity.
Qed.

Lemma filter_nonempty {A : Type} (p : A -> bool) (l : list A) :
  (0 <? List.length (filter p l))%nat = existsb p l.
Proof.
  induction l as [|a l IH]; [reflexivity|].
  cbn [filter existsb]. destruct (p a); [reflexivity | exact IH].
Qed.

(** The least time value of dated events, and its year. *)
Lemma Math_min_dated (l : list TimelineData) (m : Z) :
  (forall d, In d l -> plainEvent d) ->
  exists m',
    fold_left xmin (map dateNumber l) (Fin m) = Fin m'
    /\ m' <= m
    /\ (m' = m \/ exists d, In d l /\ Date d = Some (ValidDate m'))
    /\ YearFromTime (LocalTime m')
       = fold_left (fun a d => Z.min a (yearOr a d)) l
                   (YearFromTime (LocalTime m)).
Proof.
  revert m. induction l as [|d l IH]; intros m H.
  - exists m. cbn. repeat split; [lia | left; reflexivity].
  - destruct (H d (or_introl eq_refl)) as [t [E B]].
    cbn [map fold_left]. unfold dateNumber at 2. rewrite E. cbn [xmin].
    destruct (IH (Z.min m t)) as [m' [F [Lm [W Y]]]];
      [intros d' Hd'; apply H; right; exact Hd'|].
    exists m'. split; [exact F|]. split; [lia|]. split.
    + destruct W as [W|[d' [I D]]].
      * destruct (Z.min_spec m t) as [[_ Q]|[_ Q]];
          [left; lia | right; exists d; split;
                       [left; reflexivity | rewrite E, W, Q; reflexivity]].
      * right. exists d'. split; [right; exact I | exact D].
    + rewrite Y. f_equal. unfold yearOr, eventYear. rewrite E.
      cbn [getFullYear].
      destruct (Z.min_spec m t) as [[Lt Q]|[Lt Q]]; rewrite Q.
      * pose proof (getFullYear_mono m t ltac:(lia)). lia.
      * pose proof (getFullYear_mono t m Lt). lia.
Qed.

Lemma Math_max_dated (l : list TimelineData) (m : Z) :
  (forall d, In d l -> plainEvent d) ->
  exists m',
    fold_left xmax (map dateNumber l) (Fin m) = Fin m'
    /\ m <= m'
    /\ (m' = m \/ exists d, In d l /\ Date d = Some (ValidDate m'))
    /\ YearFromTime (LocalTime m')
       = fold_left (fun a d => Z.max a (yearOr a d)) l
                   (YearFromTime (LocalTime m)).
Proof.
  revert m. induction l as [|d l IH]; intros m H.
  - exists m. cbn. repeat split; [lia | left; reflexivity].
  - destruct (H d (or_introl eq_refl)) as [t [E B]].
    cbn [map fold_left]. unfold dateNumber at 2. rewrite E. cbn [xmax].
    destruct (IH (Z.max m t)) as [m' [F [Lm [W Y]]]];
      [intros d' Hd'; apply H; right; exact Hd'|].
    exists m'. split; [exact F|]. split; [lia|]. split.
    + destruct W as [W|[d' [I D]]].
      * destruct (Z.max_spec m t) as [[_ Q]|[_ Q]];
          [right; exists d; split;
           [left; reflexivity | rewrite E, W, Q; reflexivity]
          | left; lia].
      * right. exists d'. split; [right; exact I | exact D].
    + rewrite Y. f_equal. unfold yearOr, eventYear. rewrite E.
      cbn [getFullYear].
      destruct (Z.max_spec m t) as [[Lt Q]|[Lt Q]]; rewrite Q.
      * pose proof (getFullYear_mono m t ltac:(lia)). lia.
      * pose proof (getFullYear_mono t m Lt). lia.
Qed.

(** The data-driven window of dated events. *)
Lemma dataWindow_dated (d0 : TimelineData) (l : list TimelineData) :
  zoneWithinADay ->
  (forall d, In d (d0 :: l) -> plainEvent d) ->
  dataWindow (d0 :: l)
  = (Jan1 (minYear d0 l), Jan1 (maxYear d0 l + 1), d0 :: l).
Proof.
  intros Hz H.
  destruct (H d0 (or_introl eq_refl)) as [t0 [E0 B0]].
  assert (Hl : forall d, In d l -> plainEvent d)
    by (intros d Hd; apply H; right; exact Hd).
  destruct (Math_min_dated l t0 Hl) as [a [Fa [_ [Wa Ya]]]].
  destruct (Math_max_dated l t0 Hl) as [b [Fb [_ [Wb Yb]]]].
  assert (Ba : 100 <= YearFromTime (LocalTime a) <= 275000).
  { destruct Wa as [->|[d [I D]]]; [exact B0|].
    destruct (H d (or_intror I)) as [t [E B]].
    rewrite E in D. injection D as ->. exact B. }
  assert (Bb : 100 <= YearFromTime (LocalTime b) <= 275000).
  { destruct Wb as [->|[d [I D]]]; [exact B0|].
    destruct (H d (or_intror I)) as [t [E B]].
    rewrite E in D. injection D as ->. exact B. }
  assert (Y0 : yearOr 0 d0 = YearFromTime (LocalTime t0))
    by (unfold yearOr, eventYear; rewrite E0; reflexivity).
  unfold dataWindow, Math_min, Math_max, minYear, maxYear.
  cbn [map fold_left]. unfold dateNumber at 2 4. rewrite E0.
  cbn [xmin xmax]. rewrite Fa, Fb, Y0, <- Ya, <- Yb.
  cbn [new_Date_value].
  rewrite !TimeClip_in_range by (apply plain_time_in_range; assumption).
  cbn [getFullYear addZ option_map].
  rewrite !new_Date_Jan1 by (try assumption; unfold plainYear; lia).
  reflexivity.
Qed.

End WindowFacts.

Ltac by_computation := vm_compute; intuition (discriminate || reflexivity).

(** C2, refuted as stated: the dates of these two events are not [null]
    and neither event lies in the window 2023..2032, yet the window is
    not the one from January 1 of the least event year to January 1 of
    the year after the greatest: the date that did not parse makes it a
    pair of Invalid Dates. *)
Lemma data_window_of_unparsable_date_is_invalid :
  (forall d, In d [Sample.e2010; Sample.eSoon] -> Date d <> None)
  /\ existsb (inYears (host := Sample.host) 2023 2032)
             [Sample.e2010; Sample.eSoon] = false
  /\ selectWindow (host := Sample.host) Sample.defaults Sample.now
                  [Sample.e2010; Sample.eSoon]
     = Ok (InvalidDate, InvalidDate, [Sample.e2010; Sample.eSoon])
  /\ selectWindow (host := Sample.host) Sample.defaults Sample.now
                  [Sample.e2010; Sample.eSoon]
     <> Ok (Jan1 (host := Sample.host) 2010, Jan1 (host := Sample.host) 2011,
            [Sample.e2010; Sample.eSoon]).
Proof.
  assert (E : selectWindow (host := Sample.host) Sample.defaults Sample.now
                           [Sample.e2010; Sample.eSoon]
              = Ok (InvalidDate, InvalidDate, [Sample.e2010; Sample.eSoon]))
    by reflexivity.
  split; [|split; [|split]].
  - intros d [<-|[<-|[]]]; discriminate.
  - reflexivity.
  - exact E.
  - rewrite E. unfold Jan1. intros H. discriminate H.
Qed.

(** C2, amended.  For events whose dates are all non-null, with the years
    [currentYear - PreviousYear] and [currentYear + FutureYear] of the
    configured window outside 0..99 and in range: if some event's year
    lies between these two, the window is January 1 of these two years and
    the events drawn are exactly the events of these years, in their
    order; otherwise, when every event has a valid date (in a year from
    100 to 275000), the window runs from January 1 of the least event year
    to January 1 of the year after the greatest, and all the events are
    drawn. *)
Theorem selectWindow_candidate_or_data `{host : Host}
  (s : VisualSettings) (now : Z) (d0 : TimelineData) (l : list TimelineData) :
  zoneWithinADay ->
  plainYear (candidateLo s now) ->
  plainYear (candidateHi s now) ->
  (forall d, In d (d0 :: l) -> Date d <> None) ->
  (existsb (inYears (candidateLo s now) (candidateHi s now)) (d0 :: l) = true ->
   selectWindow s (ValidDate now) (d0 :: l)
   = Ok (Jan1 (candidateLo s now), Jan1 (candidateHi s now),
         filter (inYears (candidateLo s now) (candidateHi s now)) (d0 :: l)))
  /\ (existsb (inYears (candidateLo s now) (candidateHi s now)) (d0 :: l)
      = false ->
      (forall d, In d (d0 :: l) -> plainEvent d) ->
      selectWindow s (ValidDate now) (d0 :: l)
      = Ok (Jan1 (minYear d0 l), Jan1 (maxYear d0 l + 1), d0 :: l)).
Proof.
  intros Hz Hlo Hhi Hd.
  assert (E : selectWindow s (ValidDate now) (d0 :: l)
              = if existsb (inYears (candidateLo s now) (candidateHi s now))
                           (d0 :: l)
                then Ok (Jan1 (candidateLo s now), Jan1 (candidateHi s now),
                         filter (inYears (candidateLo s now)
                                         (candidateHi s now)) (d0 :: l))
                else Ok (dataWindow (d0 :: l))).
  { unfold selectWindow.
    change (0 <? List.length (d0 :: l))%nat with true. cbv iota.
    cbn [getFullYear addZ option_map].
    rewrite Z.add_opp_r.
    fold (candidateLo s now). fold (candidateHi s now).
    rewrite !new_Date_Jan1 by assumption.
    rewrite !getFullYear_Jan1.
    rewrite (yearFilter_dated _ (d0 :: l) Hd). cbn [bind].
    rewrite yearFilter_dated
      by (intros d I; apply Hd; apply filter_In in I; tauto).
    cbn [bind]. rewrite filter_filter.
    change (fun a : TimelineData =>
              ge (eventYear a) (Some (candidateLo s now))
              && le (eventYear a) (Some (candidateHi s now)))
      with (inYears (candidateLo s now) (candidateHi s now)).
    rewrite filter_nonempty.
    destruct (existsb _ (d0 :: l)); reflexivity. }
  split.
  - intros X. rewrite E, X. reflexivity.
  - intros X H. rewrite E, X.
    rewrite dataWindow_dated by assumption. reflexivity.
Qed.

Lemma selectWindow_candidate_or_data_witness :
  selectWindow (host := Sample.host) Sample.defaults Sample.now
               [Sample.e2022; Sample.e2023; Sample.e2021]
  = Ok (Jan1 (host := Sample.host) 2023, Jan1 (host := Sample.host) 2032,
        [Sample.e2023])
  /\ selectWindow (host := Sample.host) Sample.defaults Sample.now
                  [Sample.e2022; Sample.e2021]
     = Ok (Jan1 (host := Sample.host) 2021, Jan1 (host := Sample.host) 2023,
           [Sample.e2022; Sample.e2021]).
Proof.
  split.
  - refine (eq_trans
              (proj1
                 (selectWindow_candidate_or_data (host := Sample.host)
                    Sample.defaults Sample.clock Sample.e2022
                    [Sample.e2023; Sample.e2021] _ _ _ _) _) _).
    + by_computation.
    + by_computation.
    + by_computation.
    + intros d [<-|[<-|[<-|[]]]]; discriminate.
    + reflexivity.
    + reflexivity.
  - refine (eq_trans
              (proj2
                 (selectWindow_candidate_or_data (host := Sample.host)
                    Sample.defaults Sample.clock Sample.e2022
                    [Sample.e2021] _ _ _ _) _ _) _).
    + by_computation.
    + by_computation.
    + by_computation.
    + intros d [<-|[<-|[]]]; discriminate.
    + reflexivity.
    + intros d [<-|[<-|[]]]; eexists; (split; [reflexivity|by_computation]).
    + reflexivity.
Defined.

(* ------------------------------------------------------------------ *)
(** ** Row extraction *)

Section ConverterFacts.
Context {host : Host}.

Lemma toString_nullish (v : PrimitiveValue) :
  isNullish v = true -> toString v = Throw TypeError.
Proof. destruct v; cbn; intros H; (reflexivity || discriminate). Qed.

Lemma toString_value (v : PrimitiveValue) :
  isNullish v = false -> exists s, toString v = Ok s.
Proof. destruct v; cbn; intros H; try discriminate; eexists; reflexivity. Qed.

Lemma truthy_not_nullish (v : PrimitiveValue) :
  truthy v = true -> isNullish v = false.
Proof. destruct v; cbn; intros H; (reflexivity || discriminate). Qed.

Lemma stringOrNull_ok (v : PrimitiveValue) : exists o, stringOrNull v = Ok o.
Proof.
  unfold stringOrNull. destruct (truthy v) eqn:T.
  - destruct (toString_value v (truthy_not_nullish v T)) as [s ->].
    eexists; reflexivity.
  - eexists; reflexivity.
Qed.

(** A row whose Company cell is [null] or [undefined] stops the
    conversion. *)
Lemma convertRow_no_company (tv : DataViewTable) (ix : RoleIndex) (i : nat)
  (row : list PrimitiveValue) :
  isNullish (rowAt row (_companyIndex ix)) = true ->
  convertRow tv ix i row = Throw TypeError.
Proof.
  intros H. unfold convertRow. rewrite (toString_nullish _ H). reflexivity.
Qed.

(** With a Company cell, the row converts; the date of the event is
    decided by the Date cell alone. *)
Lemma convertRow_company (tv : DataViewTable) (ix : RoleIndex) (i : nat)
  (row : list PrimitiveValue) :
  isNullish (rowAt row (_companyIndex ix)) = false ->
  exists dp,
    convertRow tv ix i row = Ok dp
    /\ toString (rowAt row (_companyIndex ix)) = Ok (Company dp)
    /\ Date dp
       = (if truthy (rowAt row (_dateIndex ix))
          then match toString (rowAt row (_dateIndex ix)) with
               | Ok s => Some (new_Date_num (Date_parse s))
               | Throw _ => None
               end
          else None)
    /\ selectionId dp = createSelectionId tv i.
Proof.
  intros H. unfold convertRow.
  destruct (toString_value _ H) as [c ->]. cbn [bind].
  assert (T : exists t,
             (if truthy (rowAt row (_typeIndex ix))
              then toString (rowAt row (_typeIndex ix)) else Ok "") = Ok t).
  { destruct (truthy (rowAt row (_typeIndex ix))) eqn:E.
    - apply toString_value, truthy_not_nullish, E.
    - eexists; reflexivity. }
  destruct T as [t ->]. cbn [bind].
  destruct (stringOrNull_ok (rowAt row (_descIndex ix))) as [d ->].
  destruct (stringOrNull_ok (rowAt row (_companylinkIndex ix))) as [k ->].
  cbn [bind].
  destruct (truthy (rowAt row (_dateIndex ix))) eqn:E.
  - destruct (toString_value _ (truthy_not_nullish _ E)) as [s ->].
    cbn [bind].
    destruct (stringOrNull_ok (rowAt row (_headerImageIndex ix))) as [h ->].
    destruct (stringOrNull_ok (rowAt row (_footerImageIndex ix))) as [f ->].
    cbn [bind]. eexists. repeat split.
  - cbn [bind].
    destruct (stringOrNull_ok (rowAt row (_headerImageIndex ix))) as [h ->].
    destruct (stringOrNull_ok (rowAt row (_footerImageIndex ix))) as [f ->].
    cbn [bind]. eexists. repeat split.
Qed.

Lemma rowLoop_companies (tv : DataViewTable) (ix : RoleIndex)
  (rs : list (list PrimitiveValue)) (i : nat) :
  (forall row, In row rs -> isNullish (rowAt row (_companyIndex ix)) = false) ->
  exists evs,
    rowLoop tv ix i rs = Ok evs
    /\ List.length evs = List.length rs
    /\ forall k row, nth_error rs k = Some row ->
         exists dp, nth_error evs k = Some dp
                    /\ convertRow tv ix (i + k) row = Ok dp.
Proof.
  revert i. induction rs as [|r rs IH]; intros i H.
  - exists []. repeat split. intros [|k] row E; discriminate E.
  - destruct (convertRow_company tv ix i r (H r (or_introl eq_refl)))
      as [dp [E _]].
    destruct (IH (S i)) as [evs [L [N P]]];
      [intros row I; apply H; right; exact I|].
    exists (dp :: evs). cbn [rowLoop]. rewrite E, L. cbn [bind].
    split; [reflexivity|]. split; [cbn; rewrite N; reflexivity|].
    intros [|k] row Hk.
    + injection Hk as <-. exists dp. rewrite Nat.add_0_r.
      split; [reflexivity | exact E].
    + destruct (P k row Hk) as [dp' [A B]]. exists dp'.
      split; [exact A|]. rewrite <- B. f_equal. lia.
Qed.

Lemma rowLoop_no_company (tv : DataViewTable) (ix : RoleIndex)
  (rs : list (list PrimitiveValue)) (i : nat) (row : list PrimitiveValue) :
  In row rs -> isNullish (rowAt row (_companyIndex ix)) = true ->
  rowLoop tv ix i rs = Throw TypeError.
Proof.
  revert i. induction rs as [|r rs IH]; intros i I H; [destruct I|].
  cbn [rowLoop].
  destruct (convertRow tv ix i r) as [dp|[]] eqn:E; [|reflexivity].
  cbn [bind]. destruct I as [->|I].
  - rewrite (convertRow_no_company tv ix i row H) in E. discriminate E.
  - rewrite (IH (S i) I H). reflexivity.
Qed.

Lemma CONVERTER_blank_row_throws (tv : DataViewTable)
  (row : list PrimitiveValue) :
  In row (rows tv) ->
  isNullish (rowAt row (_companyIndex (roleIndexes (columns tv)))) = true ->
  CONVERTER (Some {| table := Some tv |}) = Throw TypeError.
Proof.
  intros I N. unfold CONVERTER. cbn [table].
  apply (rowLoop_no_company tv _ _ 0 row I N).
Qed.

End ConverterFacts.



(** C7.  A row whose Company cell is blank ([null]) makes [CONVERTER]
    throw, where the specification has it produce an event with an empty
    company. *)
Theorem CONVERTER_blank_company_throws :
  CONVERTER (host := Sample.host)
    (Sample.view [[PVnull; PVstring "Regulatory"; PVstring "filing";
                   PVstring "2022-03-01"]])
  = Throw TypeError.
Proof. reflexivity. Qed.

(** C8, refuted as stated: a Date cell that does not parse gives an event
    whose date is an Invalid Date object, not [null]. *)
Lemma unparsable_date_is_not_null :
  exists dp,
    CONVERTER (host := Sample.host)
      (Sample.view [Sample.row "A" "Launch" "launch" "soon"]) = Ok [dp]
    /\ Date dp <> None.
Proof. eexists. split; [reflexivity | discriminate]. Qed.

Section DateCellFacts.
Context {host : Host}.

Lemma yearFilter_drops_invalid (test : inum -> bool)
  (l : list TimelineData) :
  test NaN = false ->
  (forall d, In d l -> Date d <> None) ->
  exists kept,
    yearFilter test l = Ok kept
    /\ (forall d, In d kept -> In d l /\ Date d <> Some InvalidDate).
Proof.
  intros Hn H. exists (filter (fun d => test (eventYear d)) l).
  split; [apply yearFilter_dated, H|].
  intros d I. apply filter_In in I. destruct I as [I T].
  split; [exact I|]. intros E. unfold eventYear in T. rewrite E in T.
  cbn [getFullYear] in T. rewrite Hn in T. discriminate T.
Qed.

End DateCellFacts.

(** C8, amended.  A row with a Company value passes extraction whatever
    its Date cell holds.  A missing (falsy) Date cell gives [Date = null];
    a non-empty string that does not parse gives an Invalid Date, not
    [null].  Among events none of which has a [null] date, both year
    filters of the date window succeed and keep no event with an Invalid
    Date. *)
Theorem date_cell_missing_or_unparsable `{host : Host}
  (tv : DataViewTable) (ix : RoleIndex) (i : nat) (row : list PrimitiveValue) :
  isNullish (rowAt row (_companyIndex ix)) = false ->
  exists dp,
    convertRow tv ix i row = Ok dp
    /\ (truthy (rowAt row (_dateIndex ix)) = false -> Date dp = None)
    /\ (forall s, rowAt row (_dateIndex ix) = PVstring s -> s <> "" ->
          Date_parse s = NaN -> Date dp = Some InvalidDate)
    /\ (forall (bound : inum) (l : list TimelineData),
          (forall d, In d l -> Date d <> None) ->
          exists kept1 kept2,
            yearFilter (fun y => ge y bound) l = Ok kept1
            /\ yearFilter (fun y => le y bound) l = Ok kept2
            /\ (forall d, In d kept1 \/ In d kept2 ->
                  Date d <> Some InvalidDate)).
Proof.
  intros H. destruct (convertRow_company tv ix i row H) as [dp [E [_ [D _]]]].
  exists dp. split; [exact E|]. split; [|split].
  - intros T. rewrite D, T. reflexivity.
  - intros s C Hs P. rewrite D, C. cbn [truthy toString].
    destruct (String.eqb_spec s ""); [contradiction|].
    cbn [negb]. rewrite P. reflexivity.
  - intros bound l Hl.
    destruct (yearFilter_drops_invalid (fun y => ge y bound) l eq_refl Hl)
      as [k1 [E1 P1]].
    destruct (yearFilter_drops_invalid (fun y => le y bound) l eq_refl Hl)
      as [k2 [E2 P2]].
    exists k1, k2. split; [exact E1|]. split; [exact E2|].
    intros d [I|I]; [apply (P1 d I) | apply (P2 d I)].
Qed.

Lemma date_cell_missing_or_unparsable_witness :
  exists dp,
    convertRow (host := Sample.host)
      {| columns := Sample.fourColumns; rows := [] |}
      (roleIndexes Sample.fourColumns) 0
      (Sample.row "A" "Launch" "launch" "soon") = Ok dp
    /\ Date dp = Some InvalidDate.
Proof.
  destruct (date_cell_missing_or_unparsable (host := Sample.host)
              {| columns := Sample.fourColumns; rows := [] |}
              (roleIndexes Sample.fourColumns) 0
              (Sample.row "A" "Launch" "launch" "soon") eq_refl)
    as [dp [E [_ [U _]]]].
  exists dp. split; [exact E|].
  apply (U "soon"); [reflexivity | discriminate | reflexivity].
Defined.

(* ------------------------------------------------------------------ *)
(** ** Column roles *)

Section RoleFacts.

Lemma bindColumn_bound (ix : RoleIndex) (ti : Z) (c : DataViewMetadataColumn)
  (r : Role) :
  boundRole c = Some r -> indexFor r (bindColumn ix ti c) = ti.
Proof.
  unfold boundRole, bindColumn.
  destruct (hasRole c "Company"); [intros [= <-]; reflexivity|].
  destruct (hasRole c "Type"); [intros [= <-]; reflexivity|].
  destruct (hasRole c "Description"); [intros [= <-]; reflexivity|].
  destruct (hasRole c "CompanyLink"); [intros [= <-]; reflexivity|].
  destruct (hasRole c "Date"); [intros [= <-]; reflexivity|].
  destruct (hasRole c "HeaderImage"); [intros [= <-]; reflexivity|].
  destruct (hasRole c "FooterImage"); [intros [= <-]; reflexivity|].
  discriminate.
Qed.

Lemma bindColumn_other (ix : RoleIndex) (ti : Z) (c : DataViewMetadataColumn)
  (r : Role) :
  boundRole c <> Some r -> indexFor r (bindColumn ix ti c) = indexFor r ix.
Proof.
  unfold boundRole, bindColumn.
  destruct (hasRole c "Company");
    [destruct r; intros N; (reflexivity || (exfalso; apply N; reflexivity))|].
  destruct (hasRole c "Type");
    [destruct r; intros N; (reflexivity || (exfalso; apply N; reflexivity))|].
  destruct (hasRole c "Description");
    [destruct r; intros N; (reflexivity || (exfalso; apply N; reflexivity))|].
  destruct (hasRole c "CompanyLink");
    [destruct r; intros N; (reflexivity || (exfalso; apply N; reflexivity))|].
  destruct (hasRole c "Date");
    [destruct r; intros N; (reflexivity || (exfalso; apply N; reflexivity))|].
  destruct (hasRole c "HeaderImage");
    [destruct r; intros N; (reflexivity || (exfalso; apply N; reflexivity))|].
  destruct (hasRole c "FooterImage");
    [destruct r; intros N; (reflexivity || (exfalso; apply N; reflexivity))|].
  reflexivity.
Qed.

Lemma columnLoop_unbound (cols : list DataViewMetadataColumn) (ti : Z)
  (ix : RoleIndex) (r : Role) :
  (forall c, In c cols -> boundRole c <> Some r) ->
  indexFor r (columnLoop cols ti ix) = indexFor r ix.
Proof.
  revert ti ix. induction cols as [|c cols IH]; intros ti ix H;
    [reflexivity|].
  cbn [columnLoop]. rewrite IH by (intros c' I; apply H; right; exact I).
  apply bindColumn_other, H. left; reflexivity.
Qed.

Lemma columnLoop_app (a b : list DataViewMetadataColumn) (ti : Z)
  (ix : RoleIndex) :
  columnLoop (a ++ b) ti ix
  = columnLoop b (ti + Z.of_nat (List.length a)) (columnLoop a ti ix).
Proof.
  revert ti ix. induction a as [|c a IH]; intros ti ix.
  - cbn. rewrite Z.add_0_r. reflexivity.
  - cbn [app columnLoop]. rewrite IH. f_equal.
    cbn [List.length]. lia.
Qed.

End RoleFacts.

(** C9, refuted as stated: of two columns with the Company role it is the
    second, not the first, that the role is bound to. *)
Lemma company_index_is_not_first_match :
  _companyIndex
    (roleIndexes [Sample.column "Company"; Sample.column "Company"]) <> 0.
Proof. vm_compute. discriminate. Qed.

(** C9, amended.  A role is bound to the last column, in column order,
    that counts for it (a column counts for the first role of the chain
    Company, Type, Description, CompanyLink, Date, HeaderImage,
    FooterImage that it has); a role has one index. *)
Theorem role_index_last_match
  (pre post : list DataViewMetadataColumn) (c : DataViewMetadataColumn)
  (r : Role) :
  boundRole c = Some r ->
  (forall c', In c' post -> boundRole c' <> Some r) ->
  indexFor r (roleIndexes (pre ++ c :: post)) = Z.of_nat (List.length pre).
Proof.
  intros Hc Hpost. unfold roleIndexes.
  rewrite columnLoop_app. cbn [columnLoop].
  rewrite (columnLoop_unbound post _ _ r Hpost).
  rewrite (bindColumn_bound _ _ c r Hc). lia.
Qed.

Lemma role_index_last_match_witness :
  indexFor RDate
    (roleIndexes ([Sample.column "Date"; Sample.column "Company"]
                  ++ Sample.column "Date" :: [Sample.column "Type"]))
  = 2.
Proof.
  apply (role_index_last_match
           [Sample.column "Date"; Sample.column "Company"]
           [Sample.column "Type"] (Sample.column "Date") RDate).
  - reflexivity.
  - intros c' [<-|[]]. discriminate.
Defined.

(* ------------------------------------------------------------------ *)
(** ** Lanes *)

(** C1, refuted as stated: the lanes of the first eight events are not the
    sequence the specification lists (the second event is near, not far). *)
Lemma lanes_are_not_the_listed_sequence :
  map boxLane (seq 0 8)
  <> [FarNegative; FarPositive; NearNegative; NearPositive;
      FarNegative; FarPositive; NearNegative; NearPositive].
Proof. vm_compute. discriminate. Qed.

Section LaneFacts.

Lemma Math_ceil_half (n : Z) : Math_ceil (inject_Z n / 2) = (n + 1) / 2.
Proof.
  unfold Math_ceil, Qceiling.
  assert (E : (- (inject_Z n / 2) == (- n) # 2)%Q).
  { unfold Qeq, Qopp, Qdiv, Qmult, Qinv, inject_Z. cbn. lia. }
  rewrite (Qfloor_comp _ _ E). unfold Qfloor.
  Z.div_mod_to_equations. lia.
Qed.

Lemma boxLane_mod4 (i : nat) :
  boxLane i
  = match (i mod 4)%nat with
    | 0%nat => FarNegative
    | 1%nat => NearPositive
    | 2%nat => NearNegative
    | _ => FarPositive
    end.
Proof.
  unfold boxLane. cbv zeta. rewrite Math_ceil_half.
  pose proof (Nat.mod_upper_bound i 4 ltac:(discriminate)) as B.
  pose proof (Nat.div_mod_eq i 4) as D.
  destruct (i mod 4)%nat as [|[|[|[|k]]]] eqn:M; try lia;
    destruct (Z.eqb_spec (Z.of_nat i mod 2) 0) as [P|P];
    try (exfalso; revert P; Z.div_mod_to_equations; lia).
  - destruct (Z.eqb_spec ((Z.of_nat i / 2) mod 2) 0) as [Q|Q];
      [reflexivity|]. exfalso; revert Q; Z.div_mod_to_equations; lia.
  - destruct (Z.eqb_spec (((Z.of_nat i + 1) / 2) mod 2) 0) as [Q|Q];
      [|reflexivity]. exfalso; revert Q; Z.div_mod_to_equations; lia.
  - destruct (Z.eqb_spec ((Z.of_nat i / 2) mod 2) 0) as [Q|Q];
      [|reflexivity]. exfalso; revert Q; Z.div_mod_to_equations; lia.
  - destruct (Z.eqb_spec (((Z.of_nat i + 1) / 2) mod 2) 0) as [Q|Q];
      [reflexivity|]. exfalso; revert Q; Z.div_mod_to_equations; lia.
Qed.

End LaneFacts.

(** C1, amended.  The lane of an event is a function of its index [i]
    alone: for even [i] it is FarNegative when [i / 2] is even and
    NearNegative otherwise, for odd [i] it is FarPositive when
    [ceil(i / 2)] is even and NearPositive otherwise; the connector line
    ends in the same lane; and the lanes of the indexes 0 to 7 are
    FarNegative, NearPositive, NearNegative, FarPositive, twice. *)
Theorem lane_by_index (i : nat) :
  boxLane i
  = (if Nat.even i
     then (if Nat.even (i / 2) then FarNegative else NearNegative)
     else (if Nat.even ((i + 1) / 2) then FarPositive else NearPositive))
  /\ lineLane i = boxLane i
  /\ map laneY [FarNegative; NearNegative; NearPositive; FarPositive]
     = [(-100)%Q; (-60)%Q; 40%Q; 90%Q]
  /\ map boxLane (seq 0 8)
     = [FarNegative; NearPositive; NearNegative; FarPositive;
        FarNegative; NearPositive; NearNegative; FarPositive].
Proof.
  split; [|repeat split].
  assert (Ev : forall n : nat, Nat.even n = (Z.of_nat n mod 2 =? 0)).
  { intros n. destruct (Nat.even n) eqn:E.
    - apply Nat.even_spec in E. destruct E as [k ->].
      symmetry. apply Z.eqb_eq. rewrite Nat2Z.inj_mul.
      rewrite Z.mul_comm. apply Z.mod_mul. discriminate.
    - symmetry. apply Z.eqb_neq. intros M.
      assert (O : Nat.odd n = true)
        by (rewrite <- Nat.negb_even, E; reflexivity).
      apply Nat.odd_spec in O. destruct O as [k ->].
      revert M. rewrite Nat2Z.inj_add, Nat2Z.inj_mul.
      change (Z.of_nat 2) with 2. change (Z.of_nat 1) with 1.
      Z.div_mod_to_equations. lia. }
  unfold boxLane. cbv zeta. rewrite Math_ceil_half, !Ev.
  rewrite !Nat2Z.inj_div, Nat2Z.inj_add. reflexivity.
Qed.

(* ------------------------------------------------------------------ *)
(** ** Connector lines *)

(** C10.  The scale maps the date of an event whose date cell did not
    parse to NaN.  The callbacks of [x1] and [x2] then give 0, but the
    [stroke] callback of the same chain throws, whatever the colour table
    holds: no connector is drawn and [update] ends by the exception, where
    the specification has the line put at 0 without a crash. *)
Theorem connector_of_unparsable_date_throws :
  isNaN (@scaleTime Sample.host
           {| ts_domain := (InvalidDate, InvalidDate);
              ts_range := (40%Q, 920%Q) |}
           (Date Sample.eSoon)) = true
  /\ lineX (host := Sample.host)
           {| ts_domain := (InvalidDate, InvalidDate);
              ts_range := (40%Q, 920%Q) |} Sample.eSoon = Some 0%Q
  /\ (forall (xs : TimeScale) (ys : LinearScale) (tbl : list ColorData)
             (i : nat),
        lineOf (host := Sample.host) xs ys tbl i Sample.eSoon
        = Throw TypeError)
  /\ fst (update (host := Sample.host)
             (Sample.options [Sample.row "F" "Launch" "launch" "soon"])
             Sample.now newVisual)
     = Throw TypeError.
Proof.
  split; [reflexivity|]. split; [reflexivity|]. split.
  - intros xs ys tbl i. reflexivity.
  - reflexivity.
Qed.

(* ------------------------------------------------------------------ *)
(** ** The colour table *)

Section ColorFacts.
Context {host : Host}.

Lemma colors_length : List.length colors = 15%nat.
Proof. reflexivity. Qed.

Lemma find_colorLoop (fuel : nat) (y0 : Z) (i : nat) (maxYear y : Z) :
  y0 <= y < y0 + Z.of_nat fuel ->
  Z.of_nat fuel <= maxYear + 2 - y0 ->
  find (fun c => year c =? y) (colorLoop fuel y0 i maxYear)
  = Some {| year := y;
            color := nth_error colors (i + Z.to_nat (y - y0)) |}.
Proof.
  revert y0 i. induction fuel as [|fuel IH]; intros y0 i Hy Hf; [lia|].
  cbn [colorLoop].
  destruct (Z.leb_spec y0 (maxYear + 1)); [|lia].
  cbn [find year]. destruct (Z.eqb_spec y0 y) as [->|N].
  - rewrite Z.sub_diag, Nat.add_0_r. reflexivity.
  - rewrite IH by lia.
    replace (S i + Z.to_nat (y - (y0 + 1)))%nat
      with (i + Z.to_nat (y - y0))%nat by lia.
    reflexivity.
Qed.

Lemma colorLoop_years (fuel : nat) (y0 : Z) (i : nat) (maxYear : Z) :
  Z.of_nat fuel <= maxYear + 2 - y0 ->
  colorLoop fuel y0 i maxYear
  = map (fun k => {| year := y0 + Z.of_nat k;
                     color := nth_error colors (i + k) |})
        (seq 0 fuel).
Proof.
  revert y0 i. induction fuel as [|fuel IH]; intros y0 i Hf; [reflexivity|].
  cbn [colorLoop seq map].
  destruct (Z.leb_spec y0 (maxYear + 1)); [|lia].
  rewrite Z.add_0_r, Nat.add_0_r. f_equal.
  rewrite IH by lia. rewrite <- seq_shift, map_map.
  apply map_ext. intros k. f_equal; [lia | f_equal; lia].
Qed.

Lemma colorTable_as_map (minDate maxDate : JSDate) (y0 y1 : Z) :
  getFullYear minDate = Some y0 ->
  getFullYear maxDate = Some y1 ->
  colorTable minDate maxDate
  = map (fun k => {| year := y0 + Z.of_nat k; color := nth_error colors k |})
        (seq 0 (Z.to_nat (y1 + 2 - y0))).
Proof.
  intros H0 H1. unfold colorTable. rewrite H0, H1.
  destruct (Z.le_gt_cases 0 (y1 + 2 - y0)) as [P|N].
  - apply (colorLoop_years (Z.to_nat (y1 + 2 - y0)) y0 0 y1). lia.
  - replace (Z.to_nat (y1 + 2 - y0)) with 0%nat by lia. reflexivity.
Qed.

Lemma findColorData_in_range (minDate maxDate : JSDate) (y0 y1 y : Z) :
  getFullYear minDate = Some y0 ->
  getFullYear maxDate = Some y1 ->
  y0 <= y <= y1 + 1 ->
  findColorData (colorTable minDate maxDate) (Some y)
  = Some {| year := y; color := nth_error colors (Z.to_nat (y - y0)) |}.
Proof.
  intros H0 H1 Hy. unfold colorTable, findColorData. rewrite H0, H1.
  rewrite find_colorLoop by lia. reflexivity.
Qed.

End ColorFacts.

(** C3, refuted as stated: in a window of more than fourteen years the
    colour of a year is not the colour of the year fifteen later, which
    has none. *)
Lemma color_does_not_wrap :
  colorOf (colorTable (host := Sample.host)
             (Jan1 (host := Sample.host) 2000)
             (Jan1 (host := Sample.host) 2020)) (Some 2000)
  <> colorOf (colorTable (host := Sample.host)
                (Jan1 (host := Sample.host) 2000)
                (Jan1 (host := Sample.host) 2020)) (Some 2015).
Proof. vm_compute. discriminate. Qed.

(** C3, amended.  The table has an entry for every year from the year of
    [minDate] to the year after that of [maxDate], so that the colour
    lookup succeeds on this range; the entry of the year at distance [k]
    from the first has the palette colour of index [k] when [k < 15], and
    no colour ([undefined]) when [k >= 15]: the index does not wrap.  When
    the year fifteen later is in the range too, the two colours differ
    exactly when [k < 15] (from index 15 on both are [undefined]). *)
Theorem colorTable_lookup `{host : Host}
  (minDate maxDate : JSDate) (y0 y1 y : Z) :
  getFullYear minDate = Some y0 ->
  getFullYear maxDate = Some y1 ->
  y0 <= y <= y1 + 1 ->
  findColorData (colorTable minDate maxDate) (Some y)
  = Some {| year := y; color := nth_error colors (Z.to_nat (y - y0)) |}
  /\ colorOf (colorTable minDate maxDate) (Some y)
     = Ok (nth_error colors (Z.to_nat (y - y0)))
  /\ nth_error colors (Z.to_nat (y - y0))
     = (if y - y0 <? 15
        then Some (nth (Z.to_nat (y - y0)) colors "")
        else None)
  /\ (y + 15 <= y1 + 1 ->
      (colorOf (colorTable minDate maxDate) (Some y)
       <> colorOf (colorTable minDate maxDate) (Some (y + 15))
       <-> y - y0 < 15)).
Proof.
  intros H0 H1 Hy.
  assert (F : forall z, y0 <= z <= y1 + 1 ->
                colorOf (colorTable minDate maxDate) (Some z)
                = Ok (nth_error colors (Z.to_nat (z - y0)))).
  { intros z Hz. unfold colorOf.
    rewrite (findColorData_in_range minDate maxDate y0 y1 z H0 H1 Hz).
    reflexivity. }
  split; [apply (findColorData_in_range minDate maxDate y0 y1 y H0 H1 Hy)|].
  split; [apply F, Hy|]. split.
  - destruct (Z.ltb_spec (y - y0) 15) as [L|L].
    + apply nth_error_nth'. rewrite colors_length. lia.
    + apply nth_error_None. rewrite colors_length. lia.
  - intros H15. rewrite (F y Hy), (F (y + 15)) by lia.
    assert (N : nth_error colors (Z.to_nat (y + 15 - y0)) = None)
      by (apply nth_error_None; rewrite colors_length; lia).
    rewrite N. split.
    + intros D. destruct (Z.lt_ge_cases (y - y0) 15) as [L|L]; [exact L|].
      exfalso. apply D. f_equal.
      apply nth_error_None. rewrite colors_length. lia.
    + intros L E. injection E as E. apply nth_error_None in E.
      rewrite colors_length in E. lia.
Qed.

Lemma colorTable_lookup_witness :
  findColorData (colorTable (host := Sample.host)
                   (Jan1 (host := Sample.host) 2000)
                   (Jan1 (host := Sample.host) 2020)) (Some 2015)
  = Some {| year := 2015; color := None |}
  /\ colorOf (colorTable (host := Sample.host)
                (Jan1 (host := Sample.host) 2000)
                (Jan1 (host := Sample.host) 2020)) (Some 2003)
     <> colorOf (colorTable (host := Sample.host)
                   (Jan1 (host := Sample.host) 2000)
                   (Jan1 (host := Sample.host) 2020)) (Some (2003 + 15)).
Proof.
  split.
  - refine (eq_trans
              (proj1 (colorTable_lookup (host := Sample.host)
                        (Jan1 (host := Sample.host) 2000)
                        (Jan1 (host := Sample.host) 2020)
                        2000 2020 2015 _ _ _)) _).
    + reflexivity.
    + reflexivity.
    + lia.
    + reflexivity.
  - refine (proj2
              (proj2 (proj2 (proj2
                 (colorTable_lookup (host := Sample.host)
                    (Jan1 (host := Sample.host) 2000)
                    (Jan1 (host := Sample.host) 2020)
                    2000 2020 2003 _ _ _)))
                 _) _).
    + reflexivity.
    + reflexivity.
    + lia.
    + lia.
    + lia.
Defined.

(* ------------------------------------------------------------------ *)
(** ** The axis *)

Section AxisFacts.
Context {host : Host}.
Import ESDateFacts.

(** [diff_years] on two dates a whole number [n] of days apart. *)
Lemma round_of_days (n : Z) :
  Math_round (inject_Z (msPerDay * n) / 1000 / (60 * 60 * 24) / 365.25)
  = (8 * n + 1461) / 2922.
Proof.
  unfold Math_round.
  assert (E : (inject_Z (msPerDay * n) / 1000 / (60 * 60 * 24) / 365.25
               + (1 # 2) == (8 * n + 1461) # 2922)%Q).
  { change (60 * 60 * 24)%Q with 86400%Q.
    cbv beta iota delta
      [Qeq Qdiv Qmult Qplus Qinv Qnum Qden inject_Z msPerDay].
    lia. }
  rewrite (Qfloor_comp _ _ E). reflexivity.
Qed.

Lemma round_of_abs_days (n : Z) :
  Math_round (Qabs (inject_Z (msPerDay * n) / inject_Z msPerDay) / 365.25)
  = (8 * Z.abs n + 1461) / 2922.
Proof.
  unfold Math_round.
  assert (E : (Qabs (inject_Z (msPerDay * n) / inject_Z msPerDay) / 365.25
               + (1 # 2) == (8 * Z.abs n + 1461) # 2922)%Q).
  { assert (A : (inject_Z (msPerDay * n) / inject_Z msPerDay
                 == inject_Z n)%Q)
      by (cbv beta iota delta
            [Qeq Qdiv Qmult Qinv Qnum Qden inject_Z msPerDay]; lia).
    rewrite A.
    cbv beta iota delta
      [Qeq Qdiv Qmult Qplus Qinv Qabs Qnum Qden inject_Z].
    lia. }
  rewrite (Qfloor_comp _ _ E). reflexivity.
Qed.

Lemma abs_round_days (n : Z) :
  Z.abs ((8 * n + 1461) / 2922) = (8 * Z.abs n + 1461) / 2922.
Proof. Z.div_mod_to_equations. lia. Qed.

(** On dates a whole number of days apart, [diff_years] is the rounded
    absolute span. *)
Lemma diff_years_whole_days (a b n : Z) :
  a - b = msPerDay * n ->
  diff_years (ValidDate a) (ValidDate b)
  = spanYears (ValidDate a) (ValidDate b).
Proof.
  intros H. unfold diff_years, spanYears. cbn [getTime]. cbv zeta.
  rewrite H. replace (b - a) with (msPerDay * (- n)) by lia.
  rewrite round_of_days, round_of_abs_days, abs_round_days.
  rewrite Z.abs_opp. reflexivity.
Qed.

Lemma diff_years_Jan1 (y0 y1 : Z) :
  diff_years (Jan1 y0) (Jan1 y1) = spanYears (Jan1 y0) (Jan1 y1).
Proof.
  unfold Jan1.
  apply (diff_years_whole_days _ _ (DayFromYear y0 - DayFromYear y1)).
  unfold TimeFromYear. lia.
Qed.

Lemma spanYears_Jan1 (y0 y1 : Z) :
  spanYears (Jan1 y0) (Jan1 y1)
  = Some ((8 * Z.abs (DayFromYear y1 - DayFromYear y0) + 1461) / 2922).
Proof.
  unfold spanYears, Jan1. cbn [getTime].
  replace (TimeFromYear y1 - LocalTZA - (TimeFromYear y0 - LocalTZA))
    with (msPerDay * (DayFromYear y1 - DayFromYear y0))
    by (unfold TimeFromYear; lia).
  rewrite round_of_abs_days. reflexivity.
Qed.

(** In years: the rounded span is at most 1 exactly for windows of at
    most one year. *)
Lemma spanYears_Jan1_le_1 (y0 y1 : Z) :
  le (spanYears (Jan1 y0) (Jan1 y1)) (Some 1) = (Z.abs (y1 - y0) <=? 1).
Proof.
  rewrite spanYears_Jan1. cbn [le].
  pose proof (DayFromYear_next y0) as N0.
  pose proof (DayFromYear_next y1) as N1.
  assert (R : forall y, 365 <= DaysInYear y <= 366).
  { intros y. unfold DaysInYear.
    destruct (y mod 4 =? 0), (y mod 100 =? 0), (y mod 400 =? 0);
      cbn; lia. }
  pose proof (R y0) as R0. pose proof (R y1) as R1.
  destruct (Z.leb_spec (Z.abs (y1 - y0)) 1) as [L|L].
  - apply Z.leb_le.
    assert (C : y1 = y0 \/ y1 = y0 + 1 \/ y0 = y1 + 1) by lia.
    destruct C as [-> | [-> | ->]].
    + rewrite Z.sub_diag. Z.div_mod_to_equations. lia.
    + rewrite N0. Z.div_mod_to_equations. lia.
    + rewrite N1. Z.div_mod_to_equations. lia.
  - apply Z.leb_gt.
    destruct (Z.lt_ge_cases y0 y1) as [G|G].
    + pose proof (DayFromYear_le (y0 + 2) y1 ltac:(lia)) as M.
      pose proof (DayFromYear_next (y0 + 1)) as N2.
      pose proof (R (y0 + 1)) as R2.
      replace (y0 + 1 + 1) with (y0 + 2) in N2 by lia.
      Z.div_mod_to_equations. lia.
    + pose proof (DayFromYear_le (y1 + 2) y0 ltac:(lia)) as M.
      pose proof (DayFromYear_next (y1 + 1)) as N2.
      pose proof (R (y1 + 1)) as R2.
      replace (y1 + 1 + 1) with (y1 + 2) in N2 by lia.
      Z.div_mod_to_equations. lia.
Qed.

(** [new Date(y, m, 1)] for the months next to January. *)
Lemma new_Date_first_of (y m : Z) :
  zoneWithinADay -> plainYear y -> -1 <= m <= 1 ->
  new_Date (Some y) (Some m) 1 = firstOf y m.
Proof.
  unfold zoneWithinADay, plainYear. intros Hz Hy Hm.
  unfold new_Date.
  replace ((0 <=? y) && (y <=? 99)) with false
    by (symmetry; apply andb_false_iff; right; apply Z.leb_gt; lia).
  unfold firstOf, UTC. apply TimeClip_in_range.
  assert (R : -683003 <= DayFromYear y <= 99722525).
  { split; [apply (DayFromYear_le 100 y) | apply (DayFromYear_le y 275001)];
      lia. }
  pose proof (DayFromYear_next (y - 1)) as N.
  replace (y - 1 + 1) with y in N by lia.
  assert (D : 365 <= DaysInYear (y - 1) <= 366).
  { unfold DaysInYear.
    destruct ((y - 1) mod 4 =? 0), ((y - 1) mod 100 =? 0),
      ((y - 1) mod 400 =? 0); cbn; lia. }
  assert (C : m = -1 \/ m = 0 \/ m = 1) by lia.
  unfold MakeDate, MakeDay. cbv zeta.
  revert Hz. unfold maxTime, msPerDay. intros Hz.
  destruct C as [-> | [-> | ->]].
  - change (-1 / 12) with (-1). change (-1 mod 12) with 11.
    replace (y + -1) with (y - 1) by lia.
    unfold DayOfMonthStart. destruct (InLeapYear (y - 1)); lia.
  - change (0 / 12) with 0. change (0 mod 12) with 0.
    rewrite !Z.add_0_r. unfold DayOfMonthStart. lia.
  - change (1 / 12) with 0. change (1 mod 12) with 1.
    rewrite !Z.add_0_r. unfold DayOfMonthStart. lia.
Qed.

End AxisFacts.

(** C5.  For a window of two January firsts (of years outside 0..99 and
    in range), the axis is by month exactly when the span of the window in
    days, divided by 365.25 and rounded, is at most 1; the domain is then
    the first of the month before [minDate] and the first of the month
    after [maxDate]; otherwise the axis is by year over the window itself.
    A window of exactly one year has the rounded span 1. *)
Theorem axis_granularity_by_span `{host : Host} (y0 y1 : Z) (gWidth : Q) :
  zoneWithinADay -> plainYear y0 -> plainYear y1 ->
  xAxisFor (Jan1 y0) (Jan1 y1) gWidth
  = (if le (spanYears (Jan1 y0) (Jan1 y1)) (Some 1)
     then (Month, {| ts_domain := (firstOf y0 (-1), firstOf y1 1);
                     ts_range := (margin.left, gWidth) |})
     else (Year, {| ts_domain := (Jan1 y0, Jan1 y1);
                    ts_range := (margin.left, gWidth) |}))
  /\ spanYears (Jan1 y0) (Jan1 (y0 + 1)) = Some 1.
Proof.
  intros Hz H0 H1. split.
  - unfold xAxisFor. rewrite diff_years_Jan1.
    destruct (le (spanYears (Jan1 y0) (Jan1 y1)) (Some 1)); [|reflexivity].
    rewrite !getFullYear_Jan1, !getMonth_Jan1. cbn [addZ option_map].
    rewrite !new_Date_first_of by (assumption || lia). reflexivity.
  - pose proof (spanYears_Jan1_le_1 y0 (y0 + 1)) as L.
    rewrite spanYears_Jan1 in *. cbn [le] in L.
    replace (Z.abs (y0 + 1 - y0) <=? 1) with true in L
      by (symmetry; apply Z.leb_le; lia).
    apply Z.leb_le in L. f_equal.
    pose proof (ESDateFacts.DayFromYear_next y0) as N.
    assert (D : 365 <= DaysInYear y0).
    { unfold DaysInYear.
      destruct (y0 mod 4 =? 0), (y0 mod 100 =? 0), (y0 mod 400 =? 0);
        cbn; lia. }
    revert L. rewrite N. Z.div_mod_to_equations. lia.
Qed.

Lemma axis_granularity_by_span_witness :
  fst (xAxisFor (host := Sample.host)
         (Jan1 (host := Sample.host) 2023) (Jan1 (host := Sample.host) 2024)
         920) = Month.
Proof.
  refine (eq_trans
            (f_equal fst
               (proj1 (axis_granularity_by_span (host := Sample.host)
                         2023 2024 920 _ _ _))) _).
  - by_computation.
  - by_computation.
  - by_computation.
  - reflexivity.
Defined.

(* ------------------------------------------------------------------ *)
(** ** [update] on a table without rows *)

(** C6, refuted as stated: on a table without rows [update] still builds
    both axis scales. *)
Lemma update_no_rows_builds_scales :
  (exists r,
     fst (update (host := Sample.host) (Sample.options []) Sample.now
                 newVisual) = Ok r)
  /\ xScale (snd (update (host := Sample.host) (Sample.options [])
                         Sample.now newVisual)) <> None
  /\ yScale (snd (update (host := Sample.host) (Sample.options [])
                         Sample.now newVisual)) <> None.
Proof.
  split; [|split].
  - exists {| r_minDate := InvalidDate; r_maxDate := InvalidDate;
              r_timelineData := []; r_header := NoImage;
              r_axis := {| ax_granularity := Year; ax_ticks := [] |};
              r_ticks := []; r_lines := []; r_boxes := [] |}.
    reflexivity.
  - intros H. discriminate H.
  - intros H. discriminate H.
Qed.

(** C6, amended.  On a table without rows and with a layout other than
    header and footer, [update] ends without an exception and draws no
    event: no colour entry, no line, no box; the window is a pair of
    Invalid Dates.  The two axis scales are built all the same, the time
    scale by year over that invalid window.  (d3 puts no tick on an axis
    whose domain is invalid.) *)
Theorem update_no_rows `{host : Host}
  (options : VisualUpdateOptions) (currentDate : JSDate) (v : Visual)
  (dv : DataView) (tv : DataViewTable) :
  hd_error (dataViews options) = Some dv ->
  table dv = Some tv ->
  rows tv = [] ->
  isHeaderOrFooter (parseSettings (Some dv)) = false ->
  (forall r, axisTicks Year {| ts_domain := (InvalidDate, InvalidDate);
                               ts_range := r |} = []) ->
  update options currentDate v
  = (Ok {| r_minDate := InvalidDate; r_maxDate := InvalidDate;
           r_timelineData := []; r_header := NoImage;
           r_axis := {| ax_granularity := Year; ax_ticks := [] |};
           r_ticks := []; r_lines := []; r_boxes := [] |},
     {| settings := Some (parseSettings (Some dv));
        xScale :=
          Some {| ts_domain := (InvalidDate, InvalidDate);
                  ts_range :=
                    (margin.left,
                     (viewport_width options - margin.left - margin.right)%Q)
               |};
        yScale :=
          Some {| ls_domain := ((-105)%Q, 105%Q);
                  ls_range :=
                    ((viewport_height options - margin.top - margin.bottom)%Q,
                     margin.top) |};
        colorDataByYear := Some [] |}).
Proof.
  intros Hd Ht Hr Hl Hticks.
  pose proof Hl as Hl'. unfold isHeaderOrFooter in Hl'.
  apply orb_false_elim in Hl'. destruct Hl' as [Hh Hf].
  unfold update. rewrite Hd.
  unfold bindM at 1. unfold set_settings at 1.
  unfold bindM at 1. unfold field at 1. cbn [settings].
  rewrite Hl.
  unfold extract, CONVERTER. rewrite Ht, Hr. cbn [rowLoop bind slice0 firstn].
  unfold bindM at 1. unfold lift at 1.
  unfold bindM at 1. unfold lift at 1.
  unfold selectWindow. cbn [List.length Nat.ltb Nat.leb].
  unfold dataWindow. cbn [map].
  change (new_Date_value (Math_min [])) with InvalidDate.
  change (new_Date_value (Math_max [])) with InvalidDate.
  cbn [getFullYear addZ option_map NaN new_Date].
  unfold bindM at 1. unfold getColorDataByYear, set_colorDataByYear.
  unfold colorTable. cbn [getFullYear NaN].
  unfold bindM at 1. unfold renderHeaderAndFooter.
  unfold bindM at 1. unfold field at 1. cbn [settings].
  rewrite Hh, Hf. unfold ret at 1.
  unfold bindM at 1. unfold renderXandYAxis, xAxisFor.
  cbn [diff_years getTime NaN le].
  unfold bindM at 1. unfold set_xScale at 1.
  unfold bindM at 1. unfold set_yScale at 1.
  unfold ret at 1. rewrite Hticks.
  unfold bindM at 1. unfold renderXAxisCirclesAndQuarters.
  unfold bindM at 1. unfold field at 1. cbn [colorDataByYear].
  unfold lift at 1. cbn [mapi ax_ticks].
  unfold bindM at 1. unfold renderTimeRangeLines. unfold ret at 1.
  unfold bindM at 1. unfold renderBox. unfold ret at 1.
  unfold ret. cbn [settings xScale yScale colorDataByYear].
  reflexivity.
Qed.

Lemma update_no_rows_witness :
  fst (update (host := Sample.host) (Sample.options []) Sample.now newVisual)
  = Ok {| r_minDate := InvalidDate; r_maxDate := InvalidDate;
          r_timelineData := []; r_header := NoImage;
          r_axis := {| ax_granularity := Year; ax_ticks := [] |};
          r_ticks := []; r_lines := []; r_boxes := [] |}.
Proof.
  refine (f_equal fst
            (update_no_rows (host := Sample.host) (Sample.options [])
               Sample.now newVisual
               {| table := Some {| columns := Sample.fourColumns;
                                   rows := [] |} |}
               {| columns := Sample.fourColumns; rows := [] |}
               _ _ _ _ _)).
  - reflexivity.
  - reflexivity.
  - reflexivity.
  - reflexivity.
  - intros r. reflexivity.
Defined.

(* ------------------------------------------------------------------ *)
(** ** Further properties of the extraction *)

(** X1.  [CONVERTER] throws exactly when some row of the table has no
    value ([null] or [undefined]) in the Company cell. *)
Theorem CONVERTER_throws_iff_blank_company `{host : Host} (tv : DataViewTable) :
  CONVERTER (Some {| table := Some tv |}) = Throw TypeError
  <-> exists row,
        In row (rows tv)
        /\ isNullish (rowAt row (_companyIndex (roleIndexes (columns tv))))
           = true.
Proof.
  unfold CONVERTER. cbn [table]. split.
  - intros T.
    destruct (existsb
                (fun row =>
                   isNullish
                     (rowAt row (_companyIndex (roleIndexes (columns tv)))))
                (rows tv)) eqn:E.
    + apply existsb_exists in E. exact E.
    + exfalso.
      destruct (rowLoop_companies tv (roleIndexes (columns tv)) (rows tv) 0)
        as [evs [R _]].
      * intros row I.
        destruct (isNullish
                    (rowAt row (_companyIndex (roleIndexes (columns tv)))))
          eqn:N; [|reflexivity].
        assert (X : existsb
                      (fun row =>
                         isNullish
                           (rowAt row
                              (_companyIndex (roleIndexes (columns tv)))))
                      (rows tv) = true)
          by (apply existsb_exists; exists row; split; assumption).
        rewrite X in E. discriminate E.
      * rewrite R in T. discriminate T.
  - intros [row [I N]]. apply (rowLoop_no_company tv _ _ 0 row I N).
Qed.

(** X2.  A role for which no column counts keeps the index -1; so a table
    without a Company column, if it has a row at all, makes [CONVERTER]
    throw. *)
Theorem CONVERTER_without_company_column `{host : Host} (tv : DataViewTable)
  (r0 : list PrimitiveValue) (rs : list (list PrimitiveValue)) :
  (forall c, In c (columns tv) -> boundRole c <> Some RCompany) ->
  rows tv = r0 :: rs ->
  indexFor RCompany (roleIndexes (columns tv)) = -1
  /\ CONVERTER (Some {| table := Some tv |}) = Throw TypeError.
Proof.
  intros Hc Hr.
  assert (E : indexFor RCompany (roleIndexes (columns tv)) = -1)
    by (unfold roleIndexes; rewrite (columnLoop_unbound _ _ _ _ Hc);
        reflexivity).
  split; [exact E|].
  apply CONVERTER_blank_row_throws with (row := r0).
  - rewrite Hr. left; reflexivity.
  - cbn [indexFor] in E. rewrite E. reflexivity.
Qed.

Lemma CONVERTER_without_company_column_witness :
  CONVERTER (host := Sample.host)
    (Some {| table :=
               Some {| columns := [Sample.column "Type"; Sample.column "Date"];
                       rows := [[PVstring "Launch"; PVstring "2022-03-01"]]
                    |} |})
  = Throw TypeError.
Proof.
  apply (CONVERTER_without_company_column (host := Sample.host)
           {| columns := [Sample.column "Type"; Sample.column "Date"];
              rows := [[PVstring "Launch"; PVstring "2022-03-01"]] |}
           [PVstring "Launch"; PVstring "2022-03-01"] []).
  - intros c [<-|[<-|[]]]; discriminate.
  - reflexivity.
Defined.

(** X3.  The defaults of extraction: a row that has a Company value and
    nothing (a falsy cell, or no column) for the other roles gives the
    event with that company, the empty type and [null] for the
    description, the link, the date and the two images; its identity is
    the one the host makes for the row's index. *)
Theorem convertRow_defaults `{host : Host}
  (tv : DataViewTable) (ix : RoleIndex) (i : nat) (row : list PrimitiveValue)
  (company : string) :
  toString (rowAt row (_companyIndex ix)) = Ok company ->
  truthy (rowAt row (_typeIndex ix)) = false ->
  truthy (rowAt row (_descIndex ix)) = false ->
  truthy (rowAt row (_companylinkIndex ix)) = false ->
  truthy (rowAt row (_dateIndex ix)) = false ->
  truthy (rowAt row (_headerImageIndex ix)) = false ->
  truthy (rowAt row (_footerImageIndex ix)) = false ->
  convertRow tv ix i row
  = Ok {| Company := company; Type_ := ""; Description := None;
          CompanyLink := None; Date := None; HeaderImage := None;
          FooterImage := None; selectionId := createSelectionId tv i |}.
Proof.
  intros C T D K A H F. unfold convertRow, stringOrNull.
  rewrite C, T, D, K, A, H, F. reflexivity.
Qed.

Lemma convertRow_defaults_witness :
  convertRow (host := Sample.host)
    {| columns := [Sample.column "Company"]; rows := [] |}
    (roleIndexes [Sample.column "Company"]) 7 [PVstring "Acme"]
  = Ok (@Build_TimelineData Sample.host "Acme" "" None None None None None
          7%nat).
Proof.
  apply (convertRow_defaults (host := Sample.host)
           {| columns := [Sample.column "Company"]; rows := [] |}
           (roleIndexes [Sample.column "Company"]) 7 [PVstring "Acme"] "Acme");
    reflexivity.
Defined.

(* ------------------------------------------------------------------ *)
(** ** Further properties of the date window *)

Section WindowMoreFacts.
Context {host : Host}.
Import ESDateFacts.

Lemma yearFilter_null_date (test : inum -> bool) (l : list TimelineData)
  (d : TimelineData) :
  In d l -> Date d = None -> yearFilter test l = Throw TypeError.
Proof.
  induction l as [|a l IH]; intros I E; [destruct I|].
  cbn [yearFilter]. destruct I as [->|I].
  - rewrite E. reflexivity.
  - destruct (Date a); [|reflexivity].
    rewrite (IH I E). reflexivity.
Qed.

(** What [yearFilter] keeps is part of what it is given. *)
Lemma yearFilter_incl (test : inum -> bool) (l kept : list TimelineData) :
  yearFilter test l = Ok kept ->
  (List.length kept <= List.length l)%nat
  /\ forall d, In d kept -> In d l.
Proof.
  revert kept. induction l as [|a l IH]; intros kept.
  - intros [= <-]. split; [apply Nat.le_refl | intros d []].
  - cbn [yearFilter]. destruct (Date a); [|discriminate].
    destruct (yearFilter test l) as [rest|e]; [|discriminate].
    destruct (IH rest eq_refl) as [L P]. cbn [bind].
    destruct (test (getFullYear j)); intros [= <-]; cbn [List.length].
    + split; [lia|]. intros d [->|I]; [left; reflexivity | right; apply P, I].
    + split; [lia|]. intros d I. right. apply P, I.
Qed.






End WindowMoreFacts.

(** X4.  An event without a date ([Date = null]) among the events makes
    the choice of the window throw: the year filter reads
    [d.Date.getFullYear()] of every event. *)
Theorem selectWindow_null_date_throws `{host : Host}
  (s : VisualSettings) (currentDate : JSDate)
  (l : list TimelineData) (d : TimelineData) :
  In d l -> Date d = None ->
  selectWindow s currentDate l = Throw TypeError.
Proof.
  intros I E. unfold selectWindow.
  destruct l as [|a l]; [destruct I|].
  change (0 <? List.length (a :: l))%nat with true. cbv iota.
  rewrite (yearFilter_null_date _ (a :: l) d I E). reflexivity.
Qed.

Lemma selectWindow_null_date_throws_witness :
  selectWindow (host := Sample.host) Sample.defaults Sample.now
    [Sample.e2023;
     @Build_TimelineData Sample.host "D" "" None None None None None 3%nat]
  = Throw TypeError.
Proof.
  apply (selectWindow_null_date_throws (host := Sample.host)
           Sample.defaults Sample.now _
           (@Build_TimelineData Sample.host "D" "" None None None None None
              3%nat)).
  - right. left. reflexivity.
  - reflexivity.
Defined.



Section DrawingFacts.
Context {host : Host}.


Lemma mapi_length {A B : Type} (f : nat -> A -> result B) (l : list A)
  (i : nat) (bs : list B) :
  mapi f i l = Ok bs -> List.length bs = List.length l.
Proof.
  revert i bs. induction l as [|a l IH]; intros i bs.
  - intros [= <-]. reflexivity.
  - cbn [mapi]. destruct (f i a) as [b|e]; [|discriminate].
    cbn [bind]. destruct (mapi f (S i) l) as [bs'|e] eqn:E; [|discriminate].
    cbn [bind]. intros [= <-]. cbn. rewrite (IH _ _ E). reflexivity.
Qed.


End DrawingFacts.



(* ------------------------------------------------------------------ *)
(** ** Further properties of the colour table *)

(** X7.  The colour table lists the years from that of [minDate] to the
    year after that of [maxDate], once each and in increasing order, the
    k-th with the palette element of index k; it has
    [maxYear + 2 - minYear] entries. *)
Theorem colorTable_years `{host : Host}
  (minDate maxDate : JSDate) (y0 y1 : Z) :
  getFullYear minDate = Some y0 ->
  getFullYear maxDate = Some y1 ->
  colorTable minDate maxDate
  = map (fun k => {| year := y0 + Z.of_nat k; color := nth_error colors k |})
        (seq 0 (Z.to_nat (y1 + 2 - y0)))
  /\ Z.of_nat (List.length (colorTable minDate maxDate))
     = Z.max 0 (y1 + 2 - y0).
Proof.
  intros H0 H1. rewrite (colorTable_as_map minDate maxDate y0 y1 H0 H1).
  split; [reflexivity|]. rewrite length_map, length_seq. lia.
Qed.

Lemma colorTable_years_witness :
  Z.of_nat (List.length
              (colorTable (host := Sample.host)
                 (Jan1 (host := Sample.host) 2023)
                 (Jan1 (host := Sample.host) 2032)))
  = Z.max 0 (2032 + 2 - 2023).
Proof.
  apply (colorTable_years (host := Sample.host)
           (Jan1 (host := Sample.host) 2023)
           (Jan1 (host := Sample.host) 2032) 2023 2032);
    reflexivity.
Defined.

(** X8.  A window of at most fourteen years (the default one has nine)
    gives every year of the table a colour; a longer one leaves the years
    from the sixteenth on without. *)
Theorem colorTable_all_coloured `{host : Host}
  (minDate maxDate : JSDate) (y0 y1 : Z) (c : ColorData) :
  getFullYear minDate = Some y0 ->
  getFullYear maxDate = Some y1 ->
  In c (colorTable minDate maxDate) ->
  (color c <> None <-> year c - y0 < 15).
Proof.
  intros H0 H1 I.
  rewrite (colorTable_as_map minDate maxDate y0 y1 H0 H1) in I. apply in_map_iff in I. destruct I as [k [<- Ik]].
  cbn [color year]. split.
  - intros N. destruct (Nat.ltb_spec k 15) as [L|L]; [lia|].
    exfalso. apply N. apply nth_error_None. rewrite colors_length. exact L.
  - intros L N. apply nth_error_None in N. rewrite colors_length in N. lia.
Qed.

Lemma colorTable_all_coloured_witness :
  color {| year := 2023; color := Some "#242B47" |} <> None
  <-> 2023 - 2023 < 15.
Proof.
  apply (colorTable_all_coloured (host := Sample.host)
           (Jan1 (host := Sample.host) 2023)
           (Jan1 (host := Sample.host) 2032) 2023 2032
           {| year := 2023; color := Some "#242B47" |}).
  - reflexivity.
  - reflexivity.
  - left. reflexivity.
Defined.

(** X9.  A colour lookup for a year outside the table, or for the year NaN
    of an Invalid Date, throws (the [.color] of [undefined]). *)
Theorem colorOf_miss_throws `{host : Host}
  (minDate maxDate : JSDate) (y0 y1 y : Z) :
  getFullYear minDate = Some y0 ->
  getFullYear maxDate = Some y1 ->
  y < y0 \/ y1 + 1 < y ->
  colorOf (colorTable minDate maxDate) (Some y) = Throw TypeError
  /\ colorOf (colorTable minDate maxDate) NaN = Throw TypeError.
Proof.
  intros H0 H1 Hy. split; [|reflexivity].
  unfold colorOf, findColorData.
  destruct (find (fun c => year c =? y) (colorTable minDate maxDate))
    as [c|] eqn:F; [|reflexivity].
  exfalso. apply find_some in F. destruct F as [I Y].
  apply Z.eqb_eq in Y.
  rewrite (colorTable_as_map minDate maxDate y0 y1 H0 H1) in I. apply in_map_iff in I. destruct I as [k [<- Ik]].
  apply in_seq in Ik. cbn [year] in Y. lia.
Qed.

Lemma colorOf_miss_throws_witness :
  colorOf (colorTable (host := Sample.host)
             (Jan1 (host := Sample.host) 2023)
             (Jan1 (host := Sample.host) 2032)) (Some 2021)
  = Throw TypeError.
Proof.
  apply (colorOf_miss_throws (host := Sample.host)
           (Jan1 (host := Sample.host) 2023)
           (Jan1 (host := Sample.host) 2032) 2023 2032 2021).
  - reflexivity.
  - reflexivity.
  - left. lia.
Defined.

(* ------------------------------------------------------------------ *)
(** ** Further properties of the lanes and of the connector lines *)

(** X10.  Two events are put in the same lane exactly when their indexes
    differ by a multiple of four; in particular an event never shares its
    lane with one of the three events before it. *)
Theorem boxLane_same_iff_mod4 (i j : nat) :
  boxLane i = boxLane j <-> (i mod 4 = j mod 4)%nat.
Proof.
  rewrite !boxLane_mod4.
  pose proof (Nat.mod_upper_bound i 4 ltac:(discriminate)) as Bi.
  pose proof (Nat.mod_upper_bound j 4 ltac:(discriminate)) as Bj.
  destruct (i mod 4)%nat as [|[|[|[|a]]]]; try lia;
    destruct (j mod 4)%nat as [|[|[|[|b]]]]; try lia;
    split; intros H; (reflexivity || discriminate H).
Qed.

(** X11.  The connector of an event starts on the side of the axis where
    its box is: below ([y < 0]) for even indexes, above for odd ones, the
    stub at distance 10 and the box lane at 40 or more. *)
Theorem line_stays_on_its_side (i : nat) :
  (if Nat.even i
   then lineStubY i = (-10)%Q /\ (laneY (lineLane i) <= -60)%Q
   else lineStubY i = 10%Q /\ (40 <= laneY (lineLane i))%Q).
Proof.
  assert (L : lineLane i = boxLane i) by reflexivity.
  rewrite L, boxLane_mod4. unfold lineStubY.
  pose proof (Nat.mod_upper_bound i 4 ltac:(discriminate)) as B.
  pose proof (Nat.div_mod_eq i 4) as D.
  destruct (Nat.even i) eqn:E.
  - apply Nat.even_spec in E. destruct E as [k ->].
    replace (Z.of_nat (2 * k) mod 2 =? 0) with true
      by (symmetry; apply Z.eqb_eq; rewrite Nat2Z.inj_mul, Z.mul_comm;
          apply Z.mod_mul; discriminate).
    split; [reflexivity|].
    destruct ((2 * k) mod 4)%nat as [|[|[|[|a]]]] eqn:M; try lia;
      cbn [laneY]; unfold Qle; cbn; lia.
  - assert (O : Nat.odd i = true)
      by (rewrite <- Nat.negb_even, E; reflexivity).
    apply Nat.odd_spec in O. destruct O as [k ->].
    replace (Z.of_nat (2 * k + 1) mod 2 =? 0) with false
      by (symmetry; apply Z.eqb_neq; rewrite Nat2Z.inj_add, Nat2Z.inj_mul;
          change (Z.of_nat 2) with 2; change (Z.of_nat 1) with 1;
          Z.div_mod_to_equations; lia).
    split; [reflexivity|].
    destruct ((2 * k + 1) mod 4)%nat as [|[|[|[|a]]]] eqn:M; try lia;
      cbn [laneY]; unfold Qle; cbn; lia.
Qed.

(** X12.  A connector line is vertical: whatever the scale gives, [x1] and
    [x2] are equal; and when the scale gives a number [x] they are
    [x + 20], the box being moved to [x - 25]. *)
Theorem line_is_vertical `{host : Host}
  (xs : TimeScale) (ys : LinearScale) (tbl : list ColorData) (i : nat)
  (d : TimelineData) (ln : Line) (b : Box) (x : Q) :
  lineOf xs ys tbl i d = Ok ln ->
  boxOf xs ys tbl i d = Ok b ->
  scaleTime xs (Date d) = Some x ->
  x1 ln = x2 ln
  /\ x1 ln = Some (x + 20)%Q
  /\ fst (box_translate b) = Some (x + -25)%Q
  /\ y2 ln = snd (box_translate b).
Proof.
  unfold lineOf, boxOf. intros L B X.
  destruct (eventColor tbl d) as [c|e]; [|discriminate L].
  cbn [bind] in L, B. injection L as <-. injection B as <-.
  cbn [x1 x2 y2 box_translate fst snd]. unfold lineX. rewrite X.
  cbn [isNaN addQ option_map]. repeat split.
Qed.

Lemma line_is_vertical_witness :
  exists ln,
    lineOf (host := Sample.host)
      {| ts_domain := (ValidDate 0, ValidDate 1000); ts_range := (0%Q, 100%Q) |}
      {| ls_domain := ((-105)%Q, 105%Q); ls_range := (500%Q, 50%Q) |}
      [{| year := 2023; color := Some "#242B47" |}] 0 Sample.e2023 = Ok ln
    /\ x1 ln = x2 ln.
Proof.
  eexists. split; [reflexivity|].
  refine (proj1
            (line_is_vertical (host := Sample.host)
               {| ts_domain := (ValidDate 0, ValidDate 1000);
                  ts_range := (0%Q, 100%Q) |}
               {| ls_domain := ((-105)%Q, 105%Q); ls_range := (500%Q, 50%Q) |}
               [{| year := 2023; color := Some "#242B47" |}] 0 Sample.e2023
               _ _ _ eq_refl eq_refl eq_refl)).
Defined.

(** X23.  An event without a date, or with an Invalid Date, gets neither
    a connector line nor a box, whatever the scales and the colour table:
    the colour lookup of both throws. *)
Theorem undated_event_is_not_drawn `{host : Host}
  (xs : TimeScale) (ys : LinearScale) (tbl : list ColorData) (i : nat)
  (d : TimelineData) :
  Date d = None \/ Date d = Some InvalidDate ->
  lineOf xs ys tbl i d = Throw TypeError
  /\ boxOf xs ys tbl i d = Throw TypeError.
Proof.
  intros H.
  assert (C : eventColor tbl d = Throw TypeError).
  { unfold eventColor. destruct H as [-> | ->]; reflexivity. }
  unfold lineOf, boxOf. rewrite C. split; reflexivity.
Qed.

Lemma undated_event_is_not_drawn_witness :
  boxOf (host := Sample.host)
    {| ts_domain := (Jan1 (host := Sample.host) 2023,
                     Jan1 (host := Sample.host) 2032);
       ts_range := (40%Q, 920%Q) |}
    {| ls_domain := ((-105)%Q, 105%Q); ls_range := (500%Q, 50%Q) |}
    (colorTable (host := Sample.host)
       (Jan1 (host := Sample.host) 2023) (Jan1 (host := Sample.host) 2032))
    0 Sample.eSoon
  = Throw TypeError.
Proof.
  refine (proj2
            (undated_event_is_not_drawn (host := Sample.host) _ _ _ 0
               Sample.eSoon _)).
  right. reflexivity.
Defined.

(* ------------------------------------------------------------------ *)
(** ** The link handler *)

Section LinkFacts.

Lemma indexOf_zero_iff_prefix (s p : string) :
  p <> "" -> (indexOf s p = 0 <-> prefix p s = true).
Proof.
  intros Hp. unfold indexOf. destruct s as [|c s].
  - destruct p as [|a p]; [contradiction|]. cbn. split; discriminate.
  - cbn [index]. destruct (prefix p (String c s)).
    + split; reflexivity.
    + destruct (index 0 p s); split; intros H; try discriminate H; lia.
Qed.

Lemma indexOf_range (s p : string) : -1 <= indexOf s p.
Proof. unfold indexOf. destruct (index 0 p s); lia. Qed.

End LinkFacts.

(** X13.  A clicked link is launched as it is exactly when it begins with
    [http]; any other link gets the SharePoint base address in front.  The
    address launched therefore always begins with [http]. *)
Theorem launchedUrl_absolute (link : string) :
  launchedUrl link = (if prefix "http" link then link else baseurl ++ link)
  /\ prefix "http" (launchedUrl link) = true.
Proof.
  assert (E : launchedUrl link
              = if prefix "http" link then link else baseurl ++ link).
  { unfold launchedUrl.
    pose proof (indexOf_zero_iff_prefix link "http" ltac:(discriminate)) as Z.
    pose proof (indexOf_range link "http") as R.
    destruct (prefix "http" link).
    - replace (indexOf link "http") with 0 by (symmetry; apply Z; reflexivity).
      reflexivity.
    - destruct (Z.eqb_spec (indexOf link "http") (-1)) as [M|M];
        [reflexivity|].
      destruct (Z.ltb_spec 0 (indexOf link "http")) as [P|P];
        [reflexivity|].
      assert (O : indexOf link "http" = 0) by lia.
      apply Z in O. discriminate O. }
  split; [exact E|]. rewrite E.
  destruct (prefix "http" link) eqn:P; [exact P|].
  apply prefix_correct. reflexivity.
Qed.

(* ------------------------------------------------------------------ *)
(** ** Further properties of the axis *)

(** X14.  In years: the axis of a window of two January firsts is by
    month exactly when the two years are the same or consecutive.  With
    [PreviousYear + FutureYear >= 2] (the defaults are 1 and 8) the
    configured window is therefore drawn by year. *)
Theorem axis_by_month_iff_one_year `{host : Host} (y0 y1 : Z) (gWidth : Q) :
  zoneWithinADay -> plainYear y0 -> plainYear y1 ->
  (fst (xAxisFor (Jan1 y0) (Jan1 y1) gWidth) = Month <-> Z.abs (y1 - y0) <= 1).
Proof.
  intros Hz H0 H1. unfold xAxisFor.
  rewrite diff_years_Jan1, spanYears_Jan1_le_1.
  destruct (Z.leb_spec (Z.abs (y1 - y0)) 1) as [L|L]; cbn [fst].
  - split; [intros _; exact L | reflexivity].
  - split; [discriminate | lia].
Qed.

Lemma axis_by_month_iff_one_year_witness :
  fst (xAxisFor (host := Sample.host)
         (Jan1 (host := Sample.host) 2023) (Jan1 (host := Sample.host) 2032)
         920) = Month
  <-> Z.abs (2032 - 2023) <= 1.
Proof.
  apply (axis_by_month_iff_one_year (host := Sample.host) 2023 2032 920);
    by_computation.
Defined.

Section MonthDomainFacts.
Context {host : Host}.
Import ESDateFacts.

Lemma DaysInYear_range (y : Z) : 365 <= DaysInYear y <= 366.
Proof.
  unfold DaysInYear.
  destruct (y mod 4 =? 0), (y mod 100 =? 0), (y mod 400 =? 0); cbn; lia.
Qed.

Lemma Day_MakeDate (d : Z) : Day (MakeDate d 0) = d.
Proof.
  unfold Day, MakeDate, msPerDay. Z.div_mod_to_equations. lia.
Qed.

(** The year and the month of the [k]-th day of year [y]. *)
Lemma year_of_day_in_year (y k : Z) :
  0 <= k < DaysInYear y -> YearFromDay (DayFromYear y + k) = y.
Proof.
  intros H. apply YearFromDay_unique. rewrite DayFromYear_next. lia.
Qed.

End MonthDomainFacts.

(** December 1 of the year before [y], and February 1 of [y]. *)
Lemma firstOf_calendar `{host : Host} (y : Z) :
  getFullYear (firstOf y (-1)) = Some (y - 1)
  /\ getMonth (firstOf y (-1)) = Some 11
  /\ getDate (firstOf y (-1)) = Some 1
  /\ getFullYear (firstOf y 1) = Some y
  /\ getMonth (firstOf y 1) = Some 1
  /\ getDate (firstOf y 1) = Some 1.
Proof.
  pose proof (DaysInYear_range (y - 1)) as R1.
  pose proof (DaysInYear_range y) as R0.
  assert (D1 : MakeDay y (-1) 1
               = DayFromYear (y - 1)
                 + (if InLeapYear (y - 1) then 335 else 334)).
  { unfold MakeDay. cbv zeta.
    change (-1 / 12) with (-1). change (-1 mod 12) with 11.
    replace (y + -1) with (y - 1) by lia.
    unfold DayOfMonthStart. destruct (InLeapYear (y - 1)); lia. }
  assert (D2 : MakeDay y 1 1 = DayFromYear y + 31).
  { unfold MakeDay. cbv zeta.
    change (1 / 12) with 0. change (1 mod 12) with 1.
    rewrite !Z.add_0_r. unfold DayOfMonthStart. lia. }
  assert (Y1 : YearFromDay (MakeDay y (-1) 1) = y - 1).
  { rewrite D1. apply year_of_day_in_year.
    unfold InLeapYear. destruct (Z.eqb_spec (DaysInYear (y - 1)) 366); lia. }
  assert (Y2 : YearFromDay (MakeDay y 1 1) = y).
  { rewrite D2. apply year_of_day_in_year. lia. }
  unfold firstOf, getFullYear, getMonth, getDate.
  fold (UTC (MakeDate (MakeDay y (-1) 1) 0)).
  fold (UTC (MakeDate (MakeDay y 1 1) 0)).
  rewrite !LocalTime_UTC.
  unfold DateFromTime, MonthFromTime, DayWithinYear, YearFromTime.
  rewrite !Day_MakeDate, Y1, Y2.
  rewrite D1, D2.
  replace (DayFromYear (y - 1) + (if InLeapYear (y - 1) then 335 else 334)
           - DayFromYear (y - 1))
    with (if InLeapYear (y - 1) then 335 else 334) by lia.
  replace (DayFromYear y + 31 - DayFromYear y) with 31 by lia.
  repeat split; destruct (InLeapYear (y - 1)); destruct (InLeapYear y);
    reflexivity.
Qed.

(** X15.  The domain of a by-month axis: for a window of two January
    firsts at most a year apart, the time scale runs from December 1 of
    the year before the window to February 1 of the year in which the
    window ends. *)
Theorem month_domain_ends `{host : Host} (y0 y1 : Z) (gWidth : Q) :
  zoneWithinADay -> plainYear y0 -> plainYear y1 -> Z.abs (y1 - y0) <= 1 ->
  getFullYear (fst (ts_domain (snd (xAxisFor (Jan1 y0) (Jan1 y1) gWidth))))
  = Some (y0 - 1)
  /\ getMonth (fst (ts_domain (snd (xAxisFor (Jan1 y0) (Jan1 y1) gWidth))))
     = Some 11
  /\ getDate (fst (ts_domain (snd (xAxisFor (Jan1 y0) (Jan1 y1) gWidth))))
     = Some 1
  /\ getFullYear (snd (ts_domain (snd (xAxisFor (Jan1 y0) (Jan1 y1) gWidth))))
     = Some y1
  /\ getMonth (snd (ts_domain (snd (xAxisFor (Jan1 y0) (Jan1 y1) gWidth))))
     = Some 1
  /\ getDate (snd (ts_domain (snd (xAxisFor (Jan1 y0) (Jan1 y1) gWidth))))
     = Some 1.
Proof.
  intros Hz H0 H1 L. unfold xAxisFor.
  rewrite diff_years_Jan1, spanYears_Jan1_le_1.
  replace (Z.abs (y1 - y0) <=? 1) with true
    by (symmetry; apply Z.leb_le; exact L).
  rewrite !getFullYear_Jan1, !getMonth_Jan1. cbn [addZ option_map].
  rewrite !new_Date_first_of by (assumption || lia).
  cbn [fst snd ts_domain].
  destruct (firstOf_calendar y0) as [A [B [C _]]].
  destruct (firstOf_calendar y1) as [_ [_ [_ [D [E F]]]]].
  repeat split; assumption.
Qed.

Lemma month_domain_ends_witness :
  getMonth (host := Sample.host)
    (fst (ts_domain
            (snd (xAxisFor (host := Sample.host)
                    (Jan1 (host := Sample.host) 2023)
                    (Jan1 (host := Sample.host) 2024) 920))))
  = Some 11.
Proof.
  refine (proj1 (proj2
            (month_domain_ends (host := Sample.host) 2023 2024 920 _ _ _ _))).
  - by_computation.
  - by_computation.
  - by_computation.
  - by_computation.
Defined.

(* ------------------------------------------------------------------ *)
(** ** Further properties of [update] *)

Section UpdateFacts.
Context {host : Host}.

Lemma mapi_nth {A B : Type} (f : nat -> A -> result B) (l : list A)
  (i : nat) (bs : list B) (k : nat) (a : A) :
  mapi f i l = Ok bs -> nth_error l k = Some a ->
  exists b, nth_error bs k = Some b /\ f (i + k)%nat a = Ok b.
Proof.
  revert i bs k. induction l as [|x l IH]; intros i bs k.
  - intros _ E. destruct k; discriminate E.
  - cbn [mapi]. destruct (f i x) as [b|e] eqn:F; [|discriminate].
    cbn [bind]. destruct (mapi f (S i) l) as [bs'|e] eqn:E; [|discriminate].
    cbn [bind]. intros [= <-] N. destruct k as [|k].
    + injection N as <-. exists b. rewrite Nat.add_0_r.
      split; [reflexivity | exact F].
    + destruct (IH (S i) bs' k E N) as [b' [Nb Fb]]. exists b'.
      split; [exact Nb|]. rewrite <- Fb. f_equal. lia.
Qed.

Lemma renderHeaderAndFooter_pure (l : list TimelineData) (v : Visual)
  (s : VisualSettings) :
  settings v = Some s ->
  renderHeaderAndFooter l v = (headerFooterOf s l, v).
Proof.
  intros E. unfold renderHeaderAndFooter, headerFooterOf, bindM, field.
  rewrite E.
  destruct (String.eqb (toLowerCase (dataPoint_layout s)) "header");
    [destruct (hd_error l); reflexivity|].
  destruct (String.eqb (toLowerCase (dataPoint_layout s)) "footer");
    [destruct (hd_error l); reflexivity|].
  reflexivity.
Qed.

Lemma renderTimeRangeLines_pure (gHeight : Q) (l : list TimelineData)
  (v : Visual) (xs : TimeScale) (ys : LinearScale) (tbl : list ColorData) :
  xScale v = Some xs -> yScale v = Some ys -> colorDataByYear v = Some tbl ->
  renderTimeRangeLines gHeight l v = (mapi (lineOf xs ys tbl) 0 l, v).
Proof.
  intros X Y C. unfold renderTimeRangeLines.
  destruct l as [|d l]; [reflexivity|].
  unfold bindM, field, lift. rewrite X, Y, C. reflexivity.
Qed.

Lemma renderBox_pure (gWidth gHeight : Q) (l : list TimelineData)
  (v : Visual) (xs : TimeScale) (ys : LinearScale) (tbl : list ColorData) :
  xScale v = Some xs -> yScale v = Some ys -> colorDataByYear v = Some tbl ->
  renderBox l gWidth gHeight v = (mapi (boxOf xs ys tbl) 0 l, v).
Proof.
  intros X Y C. unfold renderBox.
  destruct l as [|d l]; [reflexivity|].
  unfold bindM, field, lift. rewrite X, Y, C. reflexivity.
Qed.

(** [update] returns what [render] computes; when that is a result and
    not an exception, it leaves the scales and the colour table of this
    result in the fields, whatever they held before. *)
Lemma update_as_render (options : VisualUpdateOptions) (currentDate : JSDate)
  (v : Visual) :
  exists v',
    update options currentDate v = (render options currentDate, v')
    /\ forall r, render options currentDate = Ok r ->
         v' = rendered_state options r.
Proof.
  unfold update, render.
  set (dv := hd_error (dataViews options)).
  set (s := parseSettings dv).
  unfold bindM at 1. unfold set_settings at 1.
  unfold bindM at 1. unfold field at 1. cbn [settings].
  unfold bindM at 1. unfold lift at 1.
  destruct (extract dv) as [td|e]; cbn [bind fst snd];
    [|eexists; split; [reflexivity | discriminate]].
  unfold bindM at 1. unfold lift at 1.
  destruct (selectWindow s currentDate td) as [[[mn mx] ws]|e];
    cbn [bind fst snd]; [|eexists; split; [reflexivity | discriminate]].
  unfold bindM at 1. unfold getColorDataByYear, set_colorDataByYear.
  cbn [settings xScale yScale colorDataByYear].
  unfold bindM at 1.
  erewrite (renderHeaderAndFooter_pure ws _ s) by reflexivity.
  destruct (headerFooterOf s ws) as [hf|e]; cbn [bind fst snd];
    [|eexists; split; [reflexivity | discriminate]].
  unfold bindM at 1. unfold renderXandYAxis.
  fold (plotWidth options). fold (plotHeight s options).
  destruct (xAxisFor mn mx (plotWidth options)) as [g xs] eqn:GX.
  unfold bindM at 1. unfold set_xScale at 1.
  unfold bindM at 1. unfold set_yScale at 1. unfold ret at 1.
  cbn [settings xScale yScale colorDataByYear fst snd].
  fold (yScaleOf s options).
  unfold bindM at 1. unfold renderXAxisCirclesAndQuarters.
  unfold bindM at 1. unfold field at 1.
  cbn [settings xScale yScale colorDataByYear ax_ticks]. unfold lift at 1.
  destruct (mapi (tickStyle (colorTable mn mx)
                    (List.length (axisTicks g xs))) 0 (axisTicks g xs))
    as [tks|e]; cbn [bind fst snd];
    [|eexists; split; [reflexivity | discriminate]].
  unfold bindM at 1.
  erewrite (renderTimeRangeLines_pure _ ws _ xs (yScaleOf s options)
              (colorTable mn mx)) by reflexivity.
  destruct (mapi (lineOf xs (yScaleOf s options) (colorTable mn mx)) 0 ws)
    as [lines|e]; cbn [bind fst snd];
    [|eexists; split; [reflexivity | discriminate]].
  unfold bindM at 1.
  erewrite (renderBox_pure _ _ ws _ xs (yScaleOf s options)
              (colorTable mn mx)) by reflexivity.
  destruct (mapi (boxOf xs (yScaleOf s options) (colorTable mn mx)) 0 ws)
    as [boxes|e]; cbn [bind fst snd];
    [|eexists; split; [reflexivity | discriminate]].
  unfold ret. eexists. split; [reflexivity|].
  intros r [= <-]. unfold rendered_state.
  cbn [r_minDate r_maxDate]. fold dv. fold s. rewrite GX. reflexivity.
Qed.

(** What the window keeps is part of what it is given, and it is empty
    only when nothing is given. *)
Lemma selectWindow_incl (s : VisualSettings) (currentDate : JSDate)
  (l ws : list TimelineData) (mn mx : JSDate) :
  selectWindow s currentDate l = Ok (mn, mx, ws) ->
  (List.length ws <= List.length l)%nat
  /\ (forall d, In d ws -> In d l)
  /\ (ws = [] -> l = []).
Proof.
  unfold selectWindow. destruct l as [|a l].
  - cbn. intros [= _ _ <-]. repeat split; auto.
  - change (0 <? List.length (a :: l))%nat with true. cbv iota.
    destruct (yearFilter _ (a :: l)) as [l1|e] eqn:E1; [|discriminate].
    cbn [bind].
    destruct (yearFilter _ l1) as [l2|e] eqn:E2; [|discriminate].
    cbn [bind].
    destruct (yearFilter_incl _ _ _ E1) as [L1 P1].
    destruct (yearFilter_incl _ _ _ E2) as [L2 P2].
    destruct l2 as [|b l2].
    + cbn. intros [= _ _ <-]. repeat split; auto.
    + change (0 <? List.length (b :: l2))%nat with true. cbv iota.
      intros [= _ _ <-]. split; [lia|]. split; [|discriminate].
      intros d I. apply P1, P2, I.
Qed.

Lemma extract_length (dv : option DataView) (td : list TimelineData) :
  extract dv = Ok td -> (List.length td <= 100)%nat.
Proof.
  unfold extract. destruct (CONVERTER dv) as [l|e]; [|discriminate].
  cbn [bind]. intros H. replace td with (slice0 100 l) by congruence.
  apply firstn_le_length.
Qed.


End UpdateFacts.

(** X16.  [update] starts afresh: what it returns does not depend on the
    scales and the colour table an earlier call left in the object, and
    after a call that ended without an exception the fields do not
    either. *)
Theorem update_ignores_old_state `{host : Host}
  (options : VisualUpdateOptions) (currentDate : JSDate) (v v' : Visual) :
  fst (update options currentDate v) = fst (update options currentDate v')
  /\ forall r, fst (update options currentDate v) = Ok r ->
       snd (update options currentDate v)
       = snd (update options currentDate v').
Proof.
  destruct (update_as_render options currentDate v) as [w [E P]].
  destruct (update_as_render options currentDate v') as [w' [E' P']].
  rewrite E, E'. cbn [fst snd]. split; [reflexivity|].
  intros r R. rewrite (P r R), (P' r R). reflexivity.
Qed.

(** X17.  When [update] ends without an exception, at most 100 events are
    drawn, all of them events of the table (none is drawn only when the
    table has no row), with one connector line and one box each, and one
    style for each tick of the axis. *)
Theorem update_draws_each_event_once `{host : Host}
  (options : VisualUpdateOptions) (currentDate : JSDate) (v : Visual)
  (r : Rendered) :
  fst (update options currentDate v) = Ok r ->
  (List.length (r_timelineData r) <= 100)%nat
  /\ List.length (r_lines r) = List.length (r_timelineData r)
  /\ List.length (r_boxes r) = List.length (r_timelineData r)
  /\ List.length (r_ticks r) = List.length (ax_ticks (r_axis r))
  /\ exists td,
       extract (hd_error (dataViews options)) = Ok td
       /\ (forall d, In d (r_timelineData r) -> In d td)
       /\ (r_timelineData r = [] -> td = []).
Proof.
  destruct (update_as_render options currentDate v) as [w [E _]].
  rewrite E. cbn [fst]. unfold render.
  destruct (extract (hd_error (dataViews options))) as [td|e] eqn:X;
    [|discriminate].
  cbn [bind].
  destruct (selectWindow _ currentDate td) as [[[mn mx] ws]|e] eqn:W;
    [|discriminate].
  cbn [bind fst snd].
  destruct (headerFooterOf _ ws) as [hf|e]; [|discriminate]. cbn [bind].
  destruct (mapi (tickStyle _ _) 0 _) as [tks|e] eqn:T; [|discriminate].
  cbn [bind].
  destruct (mapi (lineOf _ _ _) 0 ws) as [lines|e] eqn:L; [|discriminate].
  cbn [bind].
  destruct (mapi (boxOf _ _ _) 0 ws) as [boxes|e] eqn:B; [|discriminate].
  cbn [bind]. intros [= <-].
  cbn [r_timelineData r_lines r_boxes r_ticks r_axis ax_ticks].
  destruct (selectWindow_incl _ _ _ _ _ _ W) as [Lw [Pw Nw]].
  pose proof (extract_length _ _ X) as Lx.
  split; [lia|].
  split; [apply (mapi_length _ _ _ _ L)|].
  split; [apply (mapi_length _ _ _ _ B)|].
  split; [apply (mapi_length _ _ _ _ T)|].
  exists td. repeat split; assumption.
Qed.

Lemma update_draws_each_event_once_witness :
  fst (update (host := Sample.host) (Sample.options Sample.threeRows)
              Sample.now newVisual) = Ok Sample.drawn
  /\ r_timelineData Sample.drawn = [Sample.e2023]
  /\ List.length (r_lines Sample.drawn) = 1%nat
  /\ List.length (r_boxes Sample.drawn) = 1%nat
  /\ List.length (r_ticks Sample.drawn) = 10%nat.
Proof.
  destruct (update_draws_each_event_once (host := Sample.host)
              (Sample.options Sample.threeRows) Sample.now newVisual
              Sample.drawn eq_refl)
    as [_ [L [B [T _]]]].
  split; [reflexivity|]. split; [reflexivity|].
  rewrite L, B, T. repeat split; reflexivity.
Defined.

(** X18.  On a table without rows and with the header or the footer
    layout, [update] throws: [renderHeaderAndFooter] reads the image of a
    first event that does not exist. *)
Theorem update_no_rows_header_throws `{host : Host}
  (options : VisualUpdateOptions) (currentDate : JSDate) (v : Visual)
  (dv : DataView) (tv : DataViewTable) :
  hd_error (dataViews options) = Some dv ->
  table dv = Some tv ->
  rows tv = [] ->
  isHeaderOrFooter (parseSettings (Some dv)) = true ->
  fst (update options currentDate v) = Throw TypeError.
Proof.
  intros Hd Ht Hr Hl.
  destruct (update_as_render options currentDate v) as [w [E _]].
  rewrite E. cbn [fst]. unfold render. rewrite Hd.
  unfold extract, CONVERTER. rewrite Ht, Hr.
  cbn [rowLoop bind slice0 firstn].
  unfold selectWindow. cbn [List.length Nat.ltb Nat.leb bind].
  unfold dataWindow. cbn [fst snd]. unfold headerFooterOf. cbn [hd_error].
  unfold isHeaderOrFooter in Hl.
  destruct (String.eqb _ "header"); [reflexivity|].
  cbn [orb] in Hl. rewrite Hl. reflexivity.
Qed.

Lemma update_no_rows_header_throws_witness :
  fst (update (host := Sample.hostWith Sample.withHeader)
              (Sample.options []) Sample.now newVisual)
  = Throw TypeError.
Proof.
  apply (update_no_rows_header_throws
           (host := Sample.hostWith Sample.withHeader)
           (Sample.options []) Sample.now newVisual
           {| table := Some {| columns := Sample.fourColumns; rows := [] |} |}
           {| columns := Sample.fourColumns; rows := [] |});
    reflexivity.
Defined.

Section WholeRunFacts.
Context {host : Host}.


Lemma headerFooterOf_nonempty (s : VisualSettings) (d : TimelineData)
  (l : list TimelineData) :
  exists hf, headerFooterOf s (d :: l) = Ok hf.
Proof.
  unfold headerFooterOf. cbn [hd_error].
  destruct (String.eqb _ "header"); [eexists; reflexivity|].
  destruct (String.eqb _ "footer"); eexists; reflexivity.
Qed.


End WholeRunFacts.



Section InvalidDateFacts.
Context {host : Host}.

Lemma fold_xmin_NaN (l : list xnum) : fold_left xmin l XNaN = XNaN.
Proof. induction l as [|a l IH]; [reflexivity | exact IH]. Qed.

Lemma fold_xmax_NaN (l : list xnum) : fold_left xmax l XNaN = XNaN.
Proof. induction l as [|a l IH]; [reflexivity | exact IH]. Qed.

Lemma xmin_NaN_r (a : xnum) : xmin a XNaN = XNaN.
Proof. destruct a; reflexivity. Qed.

Lemma xmax_NaN_r (a : xnum) : xmax a XNaN = XNaN.
Proof. destruct a; reflexivity. Qed.

Lemma fold_xmin_with_NaN (l : list xnum) (a : xnum) :
  In XNaN l -> fold_left xmin l a = XNaN.
Proof.
  revert a. induction l as [|x l IH]; intros a I; [destruct I|].
  cbn [fold_left]. destruct I as [->|I].
  - rewrite xmin_NaN_r. apply fold_xmin_NaN.
  - apply IH, I.
Qed.

Lemma fold_xmax_with_NaN (l : list xnum) (a : xnum) :
  In XNaN l -> fold_left xmax l a = XNaN.
Proof.
  revert a. induction l as [|x l IH]; intros a I; [destruct I|].
  cbn [fold_left]. destruct I as [->|I].
  - rewrite xmax_NaN_r. apply fold_xmax_NaN.
  - apply IH, I.
Qed.

(** One Invalid Date among the events makes the data-driven window a pair
    of Invalid Dates. *)
Lemma dataWindow_invalid (l : list TimelineData) (d : TimelineData) :
  In d l -> Date d = Some InvalidDate ->
  dataWindow l = (InvalidDate, InvalidDate, l).
Proof.
  intros I E. unfold dataWindow, Math_min, Math_max.
  assert (N : In XNaN (map dateNumber l)).
  { apply in_map_iff. exists d. split; [|exact I].
    unfold dateNumber. rewrite E. reflexivity. }
  rewrite (fold_xmin_with_NaN _ _ N), (fold_xmax_with_NaN _ _ N).
  reflexivity.
Qed.

End InvalidDateFacts.

(** X20.  An unparsable date can stop the whole drawing.  When no event
    lies in the configured window and one of the events has an Invalid
    Date, the window falls back to a pair of Invalid Dates with all the
    events kept and an empty colour table, and [update] throws: no event
    finds a colour. *)
Theorem update_invalid_date_throws `{host : Host}
  (options : VisualUpdateOptions) (now : Z) (v : Visual)
  (l : list TimelineData) (d : TimelineData) (lo hi : Z) :
  lo = candidateLo (parseSettings (hd_error (dataViews options))) now ->
  hi = candidateHi (parseSettings (hd_error (dataViews options))) now ->
  zoneWithinADay ->
  plainYear lo -> plainYear hi ->
  extract (hd_error (dataViews options)) = Ok l ->
  (forall x, In x l -> Date x <> None) ->
  existsb (inYears lo hi) l = false ->
  In d l -> Date d = Some InvalidDate ->
  selectWindow (parseSettings (hd_error (dataViews options))) (ValidDate now) l
  = Ok (InvalidDate, InvalidDate, l)
  /\ fst (update options (ValidDate now) v) = Throw TypeError.
Proof.
  intros -> -> Hz Hlo Hhi X Hd Hout I E.
  set (s := parseSettings (hd_error (dataViews options))) in *.
  assert (W : selectWindow s (ValidDate now) l
              = Ok (InvalidDate, InvalidDate, l)).
  { unfold selectWindow. destruct l as [|d0 l]; [destruct I|].
    change (0 <? List.length (d0 :: l))%nat with true. cbv iota.
    cbn [getFullYear addZ option_map].
    rewrite Z.add_opp_r.
    fold (candidateLo s now). fold (candidateHi s now).
    rewrite !new_Date_Jan1 by assumption.
    rewrite !getFullYear_Jan1.
    rewrite (yearFilter_dated _ (d0 :: l) Hd). cbn [bind].
    rewrite yearFilter_dated
      by (intros x Ix; apply Hd; apply filter_In in Ix; tauto).
    cbn [bind]. rewrite filter_filter.
    change (fun a : TimelineData =>
              ge (eventYear a) (Some (candidateLo s now))
              && le (eventYear a) (Some (candidateHi s now)))
      with (inYears (candidateLo s now) (candidateHi s now)).
    rewrite filter_nonempty, Hout.
    rewrite (dataWindow_invalid (d0 :: l) d I E). reflexivity. }
  split; [exact W|].
  destruct (update_as_render options (ValidDate now) v) as [w [R _]].
  rewrite R. cbn [fst]. unfold render. fold s. rewrite X. cbn [bind].
  rewrite W. cbn [bind fst snd].
  destruct l as [|d0 l]; [destruct I|].
  destruct (headerFooterOf_nonempty s d0 l) as [hf ->]. cbn [bind].
  destruct (mapi (tickStyle _ _) 0 _) as [tks|[]]; [|reflexivity].
  cbn [bind mapi]. unfold lineOf at 1. unfold eventColor.
  destruct (Date d0) as [dt|]; [|reflexivity].
  unfold colorTable. cbn [getFullYear NaN].
  unfold colorOf, findColorData.
  destruct (getFullYear dt); reflexivity.
Qed.

Lemma update_invalid_date_throws_witness :
  fst (update (host := Sample.host)
         (Sample.options [Sample.row "A" "Launch" "launch" "soon"])
         Sample.now newVisual)
  = Throw TypeError.
Proof.
  refine (proj2
            (update_invalid_date_throws (host := Sample.host)
               (Sample.options [Sample.row "A" "Launch" "launch" "soon"])
               Sample.clock newVisual
               [Sample.event "A" "Launch" "launch" "soon" 0]
               (Sample.event "A" "Launch" "launch" "soon" 0)
               2023 2032 _ _ _ _ _ _ _ _ _ _)).
  - reflexivity.
  - reflexivity.
  - by_computation.
  - by_computation.
  - by_computation.
  - reflexivity.
  - intros x [<-|[]]. discriminate.
  - reflexivity.
  - left. reflexivity.
  - reflexivity.
Defined.

(* ------------------------------------------------------------------ *)
(** ** Ticks, header and footer *)

(** X21.  The styles of the ticks by position: the first and the last
    tick are grey with radius 27 and need no colour; every tick between
    them has radius 10 and the colour of its year, which must be in the
    table. *)
Theorem tick_styles_by_position `{host : Host}
  (tbl : list ColorData) (ticks : list JSDate) (tks : list TickStyle)
  (i : nat) (t : JSDate) :
  mapi (tickStyle tbl (List.length ticks)) 0 ticks = Ok tks ->
  nth_error ticks i = Some t ->
  exists st,
    nth_error tks i = Some st
    /\ (if (i =? 0)%nat || (i =? List.length ticks - 1)%nat
        then st = {| tick_r := 27; tick_stroke := Some "#868686";
                     tick_fill := Some "#bfbfbf"; tick_text_y := 0;
                     tick_text_fill := Some "#bfbfbf" |}
        else exists c,
               colorOf tbl (getFullYear t) = Ok c
               /\ st = {| tick_r := 10; tick_stroke := c; tick_fill := c;
                          tick_text_y := -30; tick_text_fill := c |}).
Proof.
  intros M N.
  destruct (mapi_nth _ _ _ _ _ _ M N) as [st [Ns F]]. exists st.
  split; [exact Ns|]. cbn [Nat.add] in F. unfold tickStyle in F.
  assert (Li : (i < List.length ticks)%nat)
    by (apply nth_error_Some; rewrite N; discriminate).
  replace ((Z.of_nat i =? 0) || (Z.of_nat i =? Z.of_nat (List.length ticks) - 1))
    with ((i =? 0)%nat || (i =? List.length ticks - 1)%nat) in F.
  - destruct ((i =? 0)%nat || (i =? List.length ticks - 1)%nat).
    + injection F as <-. reflexivity.
    + destruct (colorOf tbl (getFullYear t)) as [c|e]; [|discriminate F].
      cbn [bind] in F. injection F as <-. exists c. split; reflexivity.
  - f_equal.
    + destruct (Nat.eqb_spec i 0), (Z.eqb_spec (Z.of_nat i) 0);
        (reflexivity || lia).
    + destruct (Nat.eqb_spec i (List.length ticks - 1)),
        (Z.eqb_spec (Z.of_nat i) (Z.of_nat (List.length ticks) - 1));
        (reflexivity || lia).
Qed.

Lemma tick_styles_by_position_witness :
  exists st,
    nth_error
      [{| tick_r := 27; tick_stroke := Some "#868686";
          tick_fill := Some "#bfbfbf"; tick_text_y := 0;
          tick_text_fill := Some "#bfbfbf" |};
       {| tick_r := 10; tick_stroke := Some "#D5792E";
          tick_fill := Some "#D5792E"; tick_text_y := -30;
          tick_text_fill := Some "#D5792E" |};
       {| tick_r := 27; tick_stroke := Some "#868686";
          tick_fill := Some "#bfbfbf"; tick_text_y := 0;
          tick_text_fill := Some "#bfbfbf" |}] 1 = Some st
    /\ exists c,
         colorOf (colorTable (host := Sample.host)
                    (Jan1 (host := Sample.host) 2023)
                    (Jan1 (host := Sample.host) 2025))
                 (getFullYear (host := Sample.host)
                    (Jan1 (host := Sample.host) 2024)) = Ok c
         /\ st = {| tick_r := 10; tick_stroke := c; tick_fill := c;
                    tick_text_y := -30; tick_text_fill := c |}.
Proof.
  apply (tick_styles_by_position (host := Sample.host)
           (colorTable (host := Sample.host)
              (Jan1 (host := Sample.host) 2023)
              (Jan1 (host := Sample.host) 2025))
           [Jan1 (host := Sample.host) 2023; Jan1 (host := Sample.host) 2024;
            Jan1 (host := Sample.host) 2025]
           _ 1 (Jan1 (host := Sample.host) 2024));
    reflexivity.
Defined.

(** X22.  [renderHeaderAndFooter] throws exactly when the layout is header
    or footer (in any letter case) and there is no event; it assigns no
    field. *)
Theorem renderHeaderAndFooter_throws_iff `{host : Host}
  (l : list TimelineData) (v : Visual) (s : VisualSettings) :
  settings v = Some s ->
  (fst (renderHeaderAndFooter l v) = Throw TypeError
   <-> isHeaderOrFooter s = true /\ l = [])
  /\ snd (renderHeaderAndFooter l v) = v.
Proof.
  intros E. rewrite (renderHeaderAndFooter_pure l v s E). cbn [fst snd].
  split; [|reflexivity].
  unfold headerFooterOf, isHeaderOrFooter.
  destruct (String.eqb (toLowerCase (dataPoint_layout s)) "header");
    [|destruct (String.eqb (toLowerCase (dataPoint_layout s)) "footer")];
    cbn [orb]; destruct l as [|d l]; cbn [hd_error];
    split; intros H; try discriminate H; try (destruct H; discriminate);
    auto.
Qed.

Lemma renderHeaderAndFooter_throws_iff_witness :
  fst (renderHeaderAndFooter (host := Sample.host) []
         {| settings := Some Sample.withHeader; xScale := None;
            yScale := None; colorDataByYear := None |})
  = Throw TypeError.
Proof.
  apply (proj1 (renderHeaderAndFooter_throws_iff (host := Sample.host) []
                  {| settings := Some Sample.withHeader; xScale := None;
                     yScale := None; colorDataByYear := None |}
                  Sample.withHeader eq_refl)).
  split; reflexivity.
Defined.
